(** * Solace ClusterManager provider: the fake MissionControl server and
      the provider configuration

    A shallow embedding of [internal/fakeserver/fakeserver.go] and of the
    [Configure] method of [internal/provider/provider.go].

    Conventions of the embedding:
    - the object store [svr.objects : map[string]ServiceInfo] is a
      [gmap string ServiceInfo];
    - a handler is a computation in a small state-and-panic monad over the
      store and the [http.ResponseWriter] of the request.  A failed Go type
      assertion [x.(T)] is a panic; the effects made before it persist;
    - [time.Now()] and [uuid.New()] are readings of the outside world: each
      call is an explicit argument of the handler, in program order;
    - functions of other packages ([json.Unmarshal], [time.ParseDuration],
      the float to [int32] conversion, the generated API client
      constructor) are fields of a class of externals;
    - requests are served one after the other, as the specification
      assumes of the callers;
    - [log.Printf] has no effect on the store or on the response and is
      left out, and with it the [debug] flag. *)

From Stdlib Require Import ZArith Lia String Ascii.
From Stdlib Require Import SpecFloat.
From stdpp Require Import gmap strings list fin_maps.

Local Open Scope string_scope.
Set Warnings "-register-all".

(** ** Package [time] *)

(** An instant, in nanoseconds on the clock the process reads; the zero
    value [time.Time{}] is instant [0]. *)
Definition Time : Type := Z.

(** A [time.Duration]: a signed 64-bit count of nanoseconds. *)
Definition Duration : Type := Z.

Definition minDuration : Duration := (- 2 ^ 63)%Z.
Definition maxDuration : Duration := (2 ^ 63 - 1)%Z.
Definition Second : Duration := 1000000000%Z.

(** [t.Sub(u)]: the difference, saturated to the range of [Duration]. *)
Definition time_Sub (t u : Time) : Duration :=
  if (maxDuration <? t - u)%Z then maxDuration
  else if (t - u <? minDuration)%Z then minDuration
  else (t - u)%Z.

(** [time.Since(t)] is [time.Now().Sub(t)]; [now] is that reading. *)
Definition time_Since (now t : Time) : Duration := time_Sub now t.

(** [d.Seconds() > n] for a whole number [n] of seconds.  [Seconds] is
    [float64(d / Second) + float64(d % Second) / 1e9]; for the threshold
    used by the server (5.0) that floating point value exceeds the
    threshold exactly when [d] exceeds [n] seconds in nanoseconds. *)
Definition Seconds_gt (d : Duration) (n : Z) : bool := (n * Second <? d)%Z.

(** ** Decoded JSON: what [json.Unmarshal] stores in an [interface{}] *)

Inductive iface : Type :=
| INil                                  (* nil: JSON null, or a missing key *)
| IBool (b : bool)
| IFloat64 (x : spec_float)             (* every JSON number *)
| IString (s : string)
| IArray (l : list iface)
| IMap (m : list (string * iface)).

(** [jObj[k]] on a [map[string]interface{}]: nil when the key is missing
    (also on a nil map). *)
Definition index (jObj : gmap string iface) (k : string) : iface :=
  default INil (jObj !! k).

(** ** Values handed to [json.Marshal] *)

Inductive json : Type :=
| JString (s : string)
| JInt32 (n : Z)
| JTime (t : Time)                      (* the string t.Format(time.RFC3339) *)
| JArray (l : list json)
| JObject (fields : list (string * json)).

Fixpoint assoc (k : string) (fields : list (string * json)) : option json :=
  match fields with
  | [] => None
  | (k', v) :: rest => if String.eqb k k' then Some v else assoc k rest
  end.

(** Member [k] of an object, element [0] of an array. *)
Definition jfield (k : string) (j : json) : option json :=
  match j with JObject fields => assoc k fields | _ => None end.

Definition jfirst (j : json) : option json :=
  match j with JArray (x :: _) => Some x | _ => None end.

(** Follow a path of member names from [j]. *)
Fixpoint jpath (ks : list string) (j : json) : option json :=
  match ks with
  | [] => Some j
  | k :: rest => match jfield k j with Some v => jpath rest v | None => None end
  end.

(** ** Functions of other packages *)

Class Externals : Type := {
  (** [json.Unmarshal(body, &jObj)] into a [map[string]interface{}]:
      [None] is a non-nil error. *)
  json_Unmarshal : string -> option (gmap string iface);
  (** The conversion [int32(x)] of a [float64]. *)
  int32_of_float64 : spec_float -> Z;
}.

Module Fakeserver.

(** ** The data model *)

Record ServiceInfo : Type := mkServiceInfo {
  ID : string;
  ServiceClassId : string;
  DatacenterId : string;
  Name : string;
  State : string;
  MsgVpnName : string;
  EventBrokerVersion : string;
  CustomRouterName : string;
  ClusterName : string;
  MaxSpoolUsage : Z;
  Created : Time;
  Updated : Time;
  ClientUsername : string;
  ClientPassword : string;
}.

Definition set_Name (v : string) (s : ServiceInfo) : ServiceInfo :=
  mkServiceInfo (ID s) (ServiceClassId s) (DatacenterId s) v (State s)
    (MsgVpnName s) (EventBrokerVersion s) (CustomRouterName s) (ClusterName s)
    (MaxSpoolUsage s) (Created s) (Updated s) (ClientUsername s)
    (ClientPassword s).

Definition set_State (v : string) (s : ServiceInfo) : ServiceInfo :=
  mkServiceInfo (ID s) (ServiceClassId s) (DatacenterId s) (Name s) v
    (MsgVpnName s) (EventBrokerVersion s) (CustomRouterName s) (ClusterName s)
    (MaxSpoolUsage s) (Created s) (Updated s) (ClientUsername s)
    (ClientPassword s).

Definition set_Updated (v : Time) (s : ServiceInfo) : ServiceInfo :=
  mkServiceInfo (ID s) (ServiceClassId s) (DatacenterId s) (Name s) (State s)
    (MsgVpnName s) (EventBrokerVersion s) (CustomRouterName s) (ClusterName s)
    (MaxSpoolUsage s) (Created s) v (ClientUsername s) (ClientPassword s).

(** What a handler wrote with [w.Write]: the text of [http.Error], or the
    bytes [json.Marshal] made of a value.  [json.Marshal] returns no error
    on the values built here (maps of strings and [int32]), so the error
    branches after it are never taken. *)
Inductive Payload : Type :=
| PText (s : string)
| PJson (j : json).

(** The [http.ResponseWriter] of one request. *)
Record ResponseWriter : Type := mkWriter {
  w_header : list (string * string);
  w_code : option Z;
  w_body : list Payload;
}.

Definition new_writer : ResponseWriter := mkWriter [] None [].

(** The store together with the writer of the request being served. *)
Record World : Type := mkWorld {
  objects : gmap string ServiceInfo;
  w : ResponseWriter;
}.

(** ** The handler monad *)

Inductive result (A : Type) : Type :=
| Ok (a : A)
| Panic.
Arguments Ok {A} a.
Arguments Panic {A}.

Definition M (A : Type) : Type := World -> result A * World.

Definition ret {A} (a : A) : M A := fun σ => (Ok a, σ).

Definition bind {A B} (m : M A) (k : A -> M B) : M B :=
  fun σ => match m σ with
           | (Ok a, σ') => k a σ'
           | (Panic, σ') => (Panic, σ')
           end.

Definition panic {A} : M A := fun σ => (Panic, σ).

#[export] Instance M_ret : MRet M := @ret.
#[export] Instance M_bind : MBind M := fun A B k m => bind m k.

(** [svr.objects[id] = sInfo] and [delete(svr.objects, id)]. *)
Definition store (id : string) (sInfo : ServiceInfo) : M unit :=
  fun σ => (Ok tt, mkWorld (<[id := sInfo]> (objects σ)) (w σ)).

Definition remove (id : string) : M unit :=
  fun σ => (Ok tt, mkWorld (delete id (objects σ)) (w σ)).

(** [sInfo, ok = svr.objects[id]]. *)
Definition fetch (id : string) : M (option ServiceInfo) :=
  fun σ => (Ok (objects σ !! id), σ).

Definition modify_writer (f : ResponseWriter -> ResponseWriter) : M unit :=
  fun σ => (Ok tt, mkWorld (objects σ) (f (w σ))).

(** [w.Header().Add(k, v)] *)
Definition w_Header_Add (k v : string) : M unit :=
  modify_writer (fun r => mkWriter (w_header r ++ [(k, v)]) (w_code r) (w_body r)).

(** [w.WriteHeader(code)]: only the first status code counts. *)
Definition w_WriteHeader (code : Z) : M unit :=
  modify_writer (fun r =>
    mkWriter (w_header r)
      (match w_code r with Some c => Some c | None => Some code end)
      (w_body r)).

(** [w.Write(b)]: sends status 200 first when none was sent. *)
Definition w_Write (b : Payload) : M unit :=
  modify_writer (fun r =>
    mkWriter (w_header r)
      (match w_code r with Some c => Some c | None => Some 200%Z end)
      (w_body r ++ [b])).

(** [http.StatusText] on the codes the server uses. *)
Definition StatusText (code : Z) : string :=
  if (code =? 500)%Z then "Internal Server Error"
  else if (code =? 404)%Z then "Not Found"
  else if (code =? 400)%Z then "Bad Request"
  else "".

(** [http.Error(w, text, code)]: plain text headers, the code, the text. *)
Definition http_Error (text : string) (code : Z) : M unit :=
  w_Header_Add "Content-Type" "text/plain; charset=utf-8" ;;
  w_Header_Add "X-Content-Type-Options" "nosniff" ;;
  w_WriteHeader code ;;
  w_Write (PText (text +:+ String "010"%char "")).

(** The type assertions [v.(string)] and [v.(float64)]. *)
Definition assert_string (v : iface) : M string :=
  match v with IString s => ret s | _ => panic end.

Definition assert_float64 (v : iface) : M spec_float :=
  match v with IFloat64 x => ret x | _ => panic end.

(** [strings.Split(path, "/")]: one part more than there are slashes. *)
Fixpoint Split (path : string) : list string :=
  match path with
  | EmptyString => [""]
  | String c rest =>
      if Ascii.eqb c "/"%char then "" :: Split rest
      else match Split rest with
           | [] => [String c ""]
           | p :: ps => String c p :: ps
           end
  end.

(** What the handler sees of a [*http.Request]: the method, the escaped
    path and what [io.ReadAll(r.Body)] returned ([None]: an error). *)
Record Request : Type := mkRequest {
  Method : string;
  Path : string;
  Body : option string;
}.

(** The readings of the outside world one request may consume:
    [uuid.New().String()], and the first and second call of [time.Now()]
    ([time.Since] makes the second one in [handleGet]). *)
Record Readings : Type := mkReadings {
  uuid_New : string;
  time_Now : Time;
  time_Now' : Time;
}.

Section Handlers.
Context `{!Externals}.

Definition orDefault (s : iface) (ds : string) : M string :=
  match s with
  | INil => mret ds
  | _ =>
      s1 ← assert_string s;
      if String.eqb s1 "" then mret ds else assert_string s
  end.

Definition orDefaultInt32 (s : iface) (ds : Z) : M Z :=
  match s with
  | INil => mret ds
  | _ => x ← assert_float64 s; mret (int32_of_float64 x)
  end.

Definition meta : string * json :=
  ("meta", JObject [("additionalProp", JObject [])]).

Definition create_result (sInfo : ServiceInfo) : json :=
  JObject [
    ("data", JObject [
      ("id", JString ("O" +:+ ID sInfo));
      ("resourceId", JString (ID sInfo));
      ("name", JString (Name sInfo));
      ("createdTime", JTime (Created sInfo));
      ("creationState", JString (State sInfo))]);
    meta].

Definition handleCreate (sid : string) (now : Time) (body : string) : M unit :=
  match json_Unmarshal body with
  | None => http_Error (StatusText 500) 500
  | Some jObj =>
      name ← assert_string (index jObj "name");
      serviceClassId ← assert_string (index jObj "serviceClassId");
      datacenterId ← assert_string (index jObj "datacenterId");
      clusterName ← orDefault (index jObj "clusterName") "test-cluster1";
      msgVpnName ← orDefault (index jObj "msgVpnName") "test-vpn1";
      eventBrokerVersion ← orDefault (index jObj "eventBrokerVersion") "1.0.0";
      customRouterName ← orDefault (index jObj "customRouterName") "test-router1";
      maxSpoolUsage ← orDefaultInt32 (index jObj "maxSpoolUsage") 20;
      let sInfo := {|
        ID := sid;
        Name := name;
        State := "PENDING";
        ServiceClassId := serviceClassId;
        DatacenterId := datacenterId;
        ClusterName := clusterName;
        MsgVpnName := msgVpnName;
        EventBrokerVersion := eventBrokerVersion;
        CustomRouterName := customRouterName;
        MaxSpoolUsage := maxSpoolUsage;
        Created := now;
        Updated := 0%Z;
        ClientUsername := "client-user";
        ClientPassword := "client-passwd" |} in
      store sid sInfo ;;
      w_Header_Add "Content-Type" "json" ;;
      w_WriteHeader 202 ;;
      w_Write (PJson (create_result sInfo))
  end.

Definition get_result (sInfo : ServiceInfo) : json :=
  JObject [
    ("data", JObject [
      ("id", JString (ID sInfo));
      ("name", JString (Name sInfo));
      ("serviceClassId", JString (ServiceClassId sInfo));
      ("datacenterId", JString (DatacenterId sInfo));
      ("createdTime", JTime (Created sInfo));
      ("updatedTime", JTime (Updated sInfo));
      ("creationState", JString (State sInfo));
      ("eventBrokerServiceVersion", JString (EventBrokerVersion sInfo));
      ("broker", JObject [
        ("cluster", JObject [
          ("name", JString (ClusterName sInfo));
          ("primaryRouterName", JString (CustomRouterName sInfo))]);
        ("msgVpns", JArray [
          JObject [
            ("msgVpnName", JString (MsgVpnName sInfo));
            ("serviceLoginCredential", JObject [
              ("username", JString (ClientUsername sInfo));
              ("password", JString (ClientPassword sInfo))])]]);
        ("maxSpoolUsage", JInt32 (MaxSpoolUsage sInfo))])]);
    meta].

(** The record the handler works on after the PENDING block: the local
    copy [*sInfo] with its fields assigned. *)
Definition refresh (now now' : Time) (sInfo : ServiceInfo) : ServiceInfo :=
  let sInfo := set_Updated now sInfo in
  if Seconds_gt (time_Since now' (Created sInfo)) 5
  then set_State "COMPLETED" sInfo
  else sInfo.

Definition handleGet (now now' : Time) (sInfo : ServiceInfo) (id : string)
  : M unit :=
  sInfo ← (if String.eqb (State sInfo) "PENDING"
           then let sInfo := refresh now now' sInfo in
                store id sInfo ;; mret sInfo
           else mret sInfo);
  w_Header_Add "Content-Type" "json" ;;
  w_Write (PJson (get_result sInfo)).

Definition patch_result (sInfo : ServiceInfo) : json :=
  JObject [
    ("data", JObject [
      ("id", JString (ID sInfo));
      ("serviceClassId", JString (ServiceClassId sInfo));
      ("name", JString (Name sInfo));
      ("createdTime", JTime (Created sInfo));
      ("updatedTime", JTime (Updated sInfo));
      ("creationState", JString (State sInfo));
      ("eventBrokerServiceVersion", JString (EventBrokerVersion sInfo));
      ("broker", JObject [
        ("cluster", JObject [
          ("name", JString (ClusterName sInfo));
          ("primaryRouterName", JString (CustomRouterName sInfo))]);
        ("msgVpns", JArray [
          JObject [("msgVpnName", JString (MsgVpnName sInfo))]]);
        ("maxSpoolUsage", JInt32 (MaxSpoolUsage sInfo))])]);
    meta].

Definition handlePatch (now : Time) (sInfo : ServiceInfo) (id : string)
  (body : string) : M unit :=
  match json_Unmarshal body with
  | None => http_Error (StatusText 500) 500
  | Some jObj =>
      name ← assert_string (index jObj "name");
      let sInfo := set_Name name sInfo in
      let sInfo := set_State "PENDING" sInfo in
      let sInfo := set_Updated now sInfo in
      store id sInfo ;;
      w_Header_Add "Content-Type" "json" ;;
      w_Write (PJson (patch_result sInfo))
  end.

Definition delete_result (sInfo : ServiceInfo) : json :=
  JObject [
    ("data", JObject [
      ("id", JString ("O" +:+ ID sInfo));
      ("resourceId", JString (ID sInfo));
      ("name", JString (Name sInfo));
      ("createdTime", JTime (Created sInfo));
      ("status", JString "PENDING")]);
    meta].

Definition handleDelete (sInfo : ServiceInfo) (id : string) : M unit :=
  remove id ;;
  w_Header_Add "Content-Type" "json" ;;
  w_WriteHeader 202 ;;
  w_Write (PJson (delete_result sInfo)).

(** [parseRequest]: the body and the parts of the path, or the error of
    reading the body. *)
Definition parseRequest (r : Request) : option (string * list string) :=
  match Body r with
  | None => None
  | Some b => Some (b, Split (Path r))
  end.

Definition handleBrokerServices (rd : Readings) (r : Request) : M unit :=
  match parseRequest r with
  | None => mret tt
  | Some (body, parts) =>
      let bad_request := http_Error (StatusText 400) 400 in
      if (Nat.eqb (length parts) 5
          || (Nat.eqb (length parts) 6 && String.eqb (default "" (parts !! 5%nat)) ""))
         && String.eqb (Method r) "POST"
      then handleCreate (uuid_New rd) (time_Now rd) body
      else if Nat.eqb (length parts) 6 then
        let id := default "" (parts !! 5%nat) in
        found ← fetch id;
        match found with
        | None => http_Error (StatusText 404) 404
        | Some sInfo =>
            if String.eqb (Method r) "GET"
            then handleGet (time_Now rd) (time_Now' rd) sInfo id
            else if String.eqb (Method r) "PATCH"
            then handlePatch (time_Now rd) sInfo id body
            else if String.eqb (Method r) "DELETE"
            then handleDelete sInfo id
            else bad_request
        end
      else bad_request
  end.

(** One request served on the store [objs], with a fresh writer. *)
Definition serve (objs : gmap string ServiceInfo) (rd : Readings)
  (r : Request) : result unit * World :=
  handleBrokerServices rd r (mkWorld objs new_writer).

(** The store after the request: [net/http] recovers a handler's panic and
    keeps serving, so the store is then as the handler left it. *)
Definition after (objs : gmap string ServiceInfo) (rd : Readings)
  (r : Request) : gmap string ServiceInfo :=
  objects (snd (serve objs rd r)).

(** The status code the handler sent, if it sent one.  [None] is a handler
    that panicked, after which [net/http] closes the connection without an
    answer, or one that returned without writing (the body could not be
    read), after which [net/http] itself answers 200 with an empty body. *)
Definition status (objs : gmap string ServiceInfo) (rd : Readings)
  (r : Request) : option Z :=
  match serve objs rd r with
  | (Ok _, σ) => w_code (w σ)
  | (Panic, _) => None
  end.

(** The JSON document of the response, if the handler wrote one. *)
Definition reply (objs : gmap string ServiceInfo) (rd : Readings)
  (r : Request) : option json :=
  match serve objs rd r with
  | (Ok _, σ) => match w_body (w σ) with [PJson j] => Some j | _ => None end
  | (Panic, _) => None
  end.

(** A sequence of requests, each with its readings, served in order. *)
Fixpoint serve_all (objs : gmap string ServiceInfo)
  (rs : list (Readings * Request)) : gmap string ServiceInfo :=
  match rs with
  | [] => objs
  | (rd, r) :: rest => serve_all (after objs rd r) rest
  end.

(** The request addresses the object [id]: its path has six parts, the
    last of which is [id] (as in [/api/v2/missionControl/<kind>/<id>]). *)
Definition targets (r : Request) (id : string) : Prop :=
  length (Split (Path r)) = 6%nat /\ Split (Path r) !! 5%nat = Some id.

(** The state the response reports. *)
Definition creationState (j : json) : option json :=
  jpath ["data"; "creationState"] j.

(** The credential structure of a response, if it has one. *)
Definition serviceLoginCredential (j : json) : option json :=
  match jpath ["data"; "broker"; "msgVpns"] j with
  | Some vpns =>
      match jfirst vpns with
      | Some vpn => jfield "serviceLoginCredential" vpn
      | None => None
      end
  | None => None
  end.

(** The request is a create: POST on the collection path (five parts, or
    six with an empty last one). *)
Definition creates (r : Request) : Prop :=
  (length (Split (Path r)) = 5%nat
   \/ (length (Split (Path r)) = 6%nat /\ Split (Path r) !! 5%nat = Some ""))
  /\ Method r = "POST".

(** Shapes of decoded values: a string; nil or a string; nil or a number. *)
Definition is_string (v : iface) : bool :=
  match v with IString _ => true | _ => false end.

Definition opt_string (v : iface) : bool :=
  match v with INil | IString _ => true | _ => false end.

Definition opt_number (v : iface) : bool :=
  match v with INil | IFloat64 _ => true | _ => false end.

(** A decoded create body every type assertion of [handleCreate] accepts:
    the three required members are strings, the optional ones are absent
    (or null) or of their type. *)
Definition well_formed_create (jObj : gmap string iface) : bool :=
  is_string (index jObj "name")
  && is_string (index jObj "serviceClassId")
  && is_string (index jObj "datacenterId")
  && opt_string (index jObj "clusterName")
  && opt_string (index jObj "msgVpnName")
  && opt_string (index jObj "eventBrokerVersion")
  && opt_string (index jObj "customRouterName")
  && opt_number (index jObj "maxSpoolUsage").

(** The values the assertions and [orDefault] yield when they do not
    panic. *)
Definition string_of (v : iface) : string :=
  match v with IString s => s | _ => "" end.

Definition string_or (v : iface) (ds : string) : string :=
  match v with
  | IString s => if String.eqb s "" then ds else s
  | _ => ds
  end.

Definition int32_or (v : iface) (ds : Z) : Z :=
  match v with IFloat64 x => int32_of_float64 x | _ => ds end.

(** A credential structure with a username and a password that are not
    empty. *)
Definition populated (cred : option json) : bool :=
  match cred with
  | Some c =>
      match jfield "username" c, jfield "password" c with
      | Some (JString u), Some (JString p) =>
          negb (String.eqb u "") && negb (String.eqb p "")
      | _, _ => false
      end
  | None => false
  end.

(** ** The statements of the specification the server is measured against *)

(** A create is rejected: status 500, nothing added to the store. *)
Definition rejected_with_500 (objs : gmap string ServiceInfo) (rd : Readings)
  (r : Request) : Prop :=
  status objs rd r = Some 500%Z /\ after objs rd r = objs.

(** A response that reports PENDING carries no populated credentials. *)
Definition no_credentials_while_pending (j : json) : Prop :=
  creationState j = Some (JString "PENDING") ->
  populated (serviceLoginCredential j) = false.

(** A GET whose check comes no more than the threshold after the update
    [rU] still reports PENDING. *)
Definition pending_after_update (objs : gmap string ServiceInfo)
  (rdU : Readings) (rU : Request) (rdG : Readings) (rG : Request) : Prop :=
  (time_Now' rdG - time_Now rdU <= 5 * Second)%Z ->
  (reply (after objs rdU rU) rdG rG ≫= creationState)
  = Some (JString "PENDING").

(** The identity drawn for a create is distinct from every identity
    already in the store. *)
Definition fresh_identity (objs : gmap string ServiceInfo) (rd : Readings)
  : Prop :=
  forall id sInfo, objs !! id = Some sInfo -> id <> uuid_New rd.

(** The required members of a create body are present, as strings. *)
Definition required_present (jObj : gmap string iface) : bool :=
  is_string (index jObj "name")
  && is_string (index jObj "serviceClassId")
  && is_string (index jObj "datacenterId").

(** The create stored a record in which every optional member that the
    body leaves out, or gives as the empty string, has its default. *)
Definition defaults_stored (objs : gmap string ServiceInfo) (rd : Readings)
  (r : Request) (jObj : gmap string iface) : Prop :=
  exists sInfo,
    after objs rd r !! uuid_New rd = Some sInfo
    /\ (index jObj "clusterName" = INil \/ index jObj "clusterName" = IString ""
        -> ClusterName sInfo = "test-cluster1")
    /\ (index jObj "msgVpnName" = INil \/ index jObj "msgVpnName" = IString ""
        -> MsgVpnName sInfo = "test-vpn1")
    /\ (index jObj "eventBrokerVersion" = INil
        \/ index jObj "eventBrokerVersion" = IString ""
        -> EventBrokerVersion sInfo = "1.0.0")
    /\ (index jObj "customRouterName" = INil
        \/ index jObj "customRouterName" = IString ""
        -> CustomRouterName sInfo = "test-router1")
    /\ (index jObj "maxSpoolUsage" = INil -> MaxSpoolUsage sInfo = 20%Z).

(** ** The effect of one request, case by case *)

(** The record [handleCreate] stores for a decoded body that passes its
    assertions, and the record [handlePatch] stores. *)
Definition created (sid : string) (now : Time) (jObj : gmap string iface)
  : ServiceInfo := {|
  ID := sid;
  ServiceClassId := string_of (index jObj "serviceClassId");
  DatacenterId := string_of (index jObj "datacenterId");
  Name := string_of (index jObj "name");
  State := "PENDING";
  MsgVpnName := string_or (index jObj "msgVpnName") "test-vpn1";
  EventBrokerVersion := string_or (index jObj "eventBrokerVersion") "1.0.0";
  CustomRouterName := string_or (index jObj "customRouterName") "test-router1";
  ClusterName := string_or (index jObj "clusterName") "test-cluster1";
  MaxSpoolUsage := int32_or (index jObj "maxSpoolUsage") 20;
  Created := now;
  Updated := 0%Z;
  ClientUsername := "client-user";
  ClientPassword := "client-passwd" |}.

Definition patched (now : Time) (name : string) (sInfo : ServiceInfo)
  : ServiceInfo :=
  set_Updated now (set_State "PENDING" (set_Name name sInfo)).

(** The store and the status code one request leaves behind, as a
    relation with one rule per path through [handleBrokerServices];
    [serve_Step] shows that [serve] follows it. *)
Inductive Step (objs : gmap string ServiceInfo) (rd : Readings) (r : Request)
  : gmap string ServiceInfo -> option Z -> Prop :=
| Step_unreadable :
    Body r = None -> Step objs rd r objs None
| Step_create_rejected body :
    creates r -> Body r = Some body -> json_Unmarshal body = None ->
    Step objs rd r objs (Some 500%Z)
| Step_create_panic body jObj :
    creates r -> Body r = Some body -> json_Unmarshal body = Some jObj ->
    well_formed_create jObj = false ->
    Step objs rd r objs None
| Step_create body jObj :
    creates r -> Body r = Some body -> json_Unmarshal body = Some jObj ->
    well_formed_create jObj = true ->
    Step objs rd r
      (<[uuid_New rd := created (uuid_New rd) (time_Now rd) jObj]> objs)
      (Some 202%Z)
| Step_not_found id body :
    ~ creates r -> targets r id -> Body r = Some body -> objs !! id = None ->
    Step objs rd r objs (Some 404%Z)
| Step_get_pending id body sInfo :
    targets r id -> Method r = "GET" -> Body r = Some body ->
    objs !! id = Some sInfo -> State sInfo = "PENDING" ->
    Step objs rd r
      (<[id := refresh (time_Now rd) (time_Now' rd) sInfo]> objs)
      (Some 200%Z)
| Step_get_settled id body sInfo :
    targets r id -> Method r = "GET" -> Body r = Some body ->
    objs !! id = Some sInfo -> State sInfo <> "PENDING" ->
    Step objs rd r objs (Some 200%Z)
| Step_patch_rejected id body sInfo :
    targets r id -> Method r = "PATCH" -> Body r = Some body ->
    objs !! id = Some sInfo -> json_Unmarshal body = None ->
    Step objs rd r objs (Some 500%Z)
| Step_patch_panic id body sInfo jObj :
    targets r id -> Method r = "PATCH" -> Body r = Some body ->
    objs !! id = Some sInfo -> json_Unmarshal body = Some jObj ->
    is_string (index jObj "name") = false ->
    Step objs rd r objs None
| Step_patch id body sInfo jObj name :
    targets r id -> Method r = "PATCH" -> Body r = Some body ->
    objs !! id = Some sInfo -> json_Unmarshal body = Some jObj ->
    index jObj "name" = IString name ->
    Step objs rd r (<[id := patched (time_Now rd) name sInfo]> objs)
      (Some 200%Z)
| Step_delete id body sInfo :
    targets r id -> Method r = "DELETE" -> Body r = Some body ->
    objs !! id = Some sInfo ->
    Step objs rd r (delete id objs) (Some 202%Z)
| Step_bad_method id body sInfo :
    ~ creates r -> targets r id -> Body r = Some body ->
    objs !! id = Some sInfo ->
    Method r <> "GET" -> Method r <> "PATCH" -> Method r <> "DELETE" ->
    Step objs rd r objs (Some 400%Z)
| Step_bad_path body :
    ~ creates r -> Body r = Some body ->
    length (Split (Path r)) <> 6%nat ->
    Step objs rd r objs (Some 400%Z).

(** The only key of the store a request can touch: the identity drawn for
    a POST, the last part of the path otherwise. *)
Definition key_of (rd : Readings) (r : Request) : string :=
  if String.eqb (Method r) "POST" then uuid_New rd
  else default "" (Split (Path r) !! 5%nat).

(** Two records agree on every field that is only assigned at creation. *)
Definition same_fixed (s s' : ServiceInfo) : Prop :=
  ID s' = ID s
  /\ ServiceClassId s' = ServiceClassId s
  /\ DatacenterId s' = DatacenterId s
  /\ MsgVpnName s' = MsgVpnName s
  /\ EventBrokerVersion s' = EventBrokerVersion s
  /\ CustomRouterName s' = CustomRouterName s
  /\ ClusterName s' = ClusterName s
  /\ MaxSpoolUsage s' = MaxSpoolUsage s
  /\ Created s' = Created s
  /\ ClientUsername s' = ClientUsername s
  /\ ClientPassword s' = ClientPassword s.

(** Store invariants: every object is filed under its own [ID]; every
    state is PENDING or COMPLETED. *)
Definition keyed_by_ID (objs : gmap string ServiceInfo) : Prop :=
  forall id sInfo, objs !! id = Some sInfo -> ID sInfo = id.

Definition states_known (objs : gmap string ServiceInfo) : Prop :=
  forall id sInfo, objs !! id = Some sInfo ->
    State sInfo = "PENDING" \/ State sInfo = "COMPLETED".

(** A part of a path: a string without a slash. *)
Fixpoint no_slash (s : string) : bool :=
  match s with
  | EmptyString => true
  | String c rest => negb (Ascii.eqb c "/"%char) && no_slash rest
  end.

(** The same GET, once per reading: a client polling. *)
Definition poll (r : Request) (rds : list Readings)
  : list (Readings * Request) :=
  map (fun rd => (rd, r)) rds.

(** The check of [handleGet] at the reading [rd] on an object created at
    [t]. *)
Definition due (t : Time) (rd : Readings) : bool :=
  Seconds_gt (time_Since (time_Now' rd) t) 5.

(** The envelope of every JSON answer: the [meta] member with its empty
    [additionalProp], and a [data] member with an identity, a name and a
    creation time. *)
Definition enveloped (j : json) : Prop :=
  jfield "meta" j = Some (JObject [("additionalProp", JObject [])])
  /\ is_Some (jpath ["data"; "id"] j)
  /\ is_Some (jpath ["data"; "name"] j)
  /\ is_Some (jpath ["data"; "createdTime"] j).

(** What a handler leaves in a fresh writer: nothing, an error text with
    its code, or one JSON document with code 200 or 202. *)
Definition written (res : result unit) (wr : ResponseWriter) : Prop :=
  match res with
  | Panic => True
  | Ok _ =>
      (w_code wr = None /\ w_body wr = [])
      \/ (exists text code, w_body wr = [PText text] /\ w_code wr = Some code
                            /\ code <> 200%Z /\ code <> 202%Z)
      \/ (exists j code, w_body wr = [PJson j] /\ w_code wr = Some code
                         /\ (code = 200%Z \/ code = 202%Z) /\ enveloped j)
  end.

End Handlers.

End Fakeserver.

Module Provider.

(** ** Values of the plugin framework *)

(** A [types.String]: null, unknown, or a known string. *)
Inductive tfString : Type :=
| StringNull
| StringUnknown
| StringValue (s : string).

Definition IsNull (v : tfString) : bool :=
  match v with StringNull => true | _ => false end.

Definition IsUnknown (v : tfString) : bool :=
  match v with StringUnknown => true | _ => false end.

(** [ValueString]: the known value, the empty string for null and
    unknown. *)
Definition ValueString (v : tfString) : string :=
  match v with StringValue s => s | _ => "" end.

Record clusterManagerProviderModel : Type := mkModel {
  Host : tfString;
  BearerToken : tfString;
  PollingTimeoutDuration : tfString;
  PollingIntervalDuration : tfString;
}.

(** A diagnostic: its severity, the attribute path it is attached to (if
    any) and its summary; the detail text is left out. *)
Inductive Severity : Type := SeverityError | SeverityWarning.

Record Diagnostic : Type := mkDiagnostic {
  severity : Severity;
  attribute : option string;
  summary : string;
}.

#[export] Instance Severity_eq_dec : EqDecision Severity.
Proof. solve_decision. Defined.

#[export] Instance Diagnostic_eq_dec : EqDecision Diagnostic.
Proof. solve_decision. Defined.

Definition Diagnostics : Type := list Diagnostic.

(** [diags.Append(in...)]: a diagnostic already contained is skipped. *)
Fixpoint Append (diags : Diagnostics) (new : list Diagnostic) : Diagnostics :=
  match new with
  | [] => diags
  | d :: rest =>
      if bool_decide (d ∈ diags) then Append diags rest
      else Append (diags ++ [d])%list rest
  end.

Definition is_error (d : Diagnostic) : bool :=
  match severity d with SeverityError => true | SeverityWarning => false end.

Definition HasError (diags : Diagnostics) : bool := existsb is_error diags.

Definition AddAttributeError (path summary : string) (diags : Diagnostics)
  : Diagnostics :=
  Append diags [mkDiagnostic SeverityError (Some path) summary].

Definition AddError (summary : string) (diags : Diagnostics) : Diagnostics :=
  Append diags [mkDiagnostic SeverityError None summary].

(** [os.Getenv]: the empty string for a variable that is not set. *)
Definition Getenv (env : gmap string string) (k : string) : string :=
  default "" (env !! k).

(** Functions of other packages the provider calls. *)
Class Externals : Type := {
  (** The generated [*missioncontrol.ClientWithResponses]. *)
  Client : Type;
  (** [time.ParseDuration]: [None] is a non-nil error. *)
  ParseDuration : string -> option Duration;
  (** [missioncontrol.NewClientWithResponses(host, ...)]. *)
  NewClientWithResponses : string -> option Client;
}.

(** What [req.Config.Get(ctx, &config)] yields: diagnostics and the
    decoded configuration. *)
Record ConfigureRequest : Type := mkConfigureRequest {
  Config_diags : Diagnostics;
  Config : clusterManagerProviderModel;
}.

Section Configure.
Context `{!Externals}.

Record CMProviderData : Type := mkCMProviderData {
  CM_Client : Client;
  CM_BearerToken : string;
  CM_PollingIntervalDuration : Duration;
  CM_PollingTimeoutDuration : Duration;
}.

Record ConfigureResponse : Type := mkConfigureResponse {
  resp_Diagnostics : Diagnostics;
  DataSourceData : option CMProviderData;
  ResourceData : option CMProviderData;
}.

(** The pattern of [Configure] for each setting: the environment variable,
    overridden by the configuration value unless that is null. *)
Definition from_env_or_config (env : gmap string string) (var : string)
  (v : tfString) : string :=
  let s := Getenv env var in
  if negb (IsNull v) then ValueString v else s.

(** [pollingIntervalDurationStr] and [pollingTimeoutDurationStr] as they
    stand when [Configure] parses them. *)
Definition pollingIntervalDurationStr (env : gmap string string)
  (config : clusterManagerProviderModel) : string :=
  let s := from_env_or_config env "POLLING_INTERVAL_DURATION"
             (PollingIntervalDuration config) in
  if String.eqb s "" then "20s" else s.

Definition pollingTimeoutDurationStr (env : gmap string string)
  (config : clusterManagerProviderModel) : string :=
  let s := from_env_or_config env "POLLING_TIMEOUT_DURATION"
             (PollingTimeoutDuration config) in
  if String.eqb s "" then "30m" else s.

(** [Configure], from an empty response.  A duration that fails to parse
    is the zero duration. *)
Definition Configure (env : gmap string string) (req : ConfigureRequest)
  : ConfigureResponse :=
  let config := Config req in
  let diags := Append [] (Config_diags req) in
  if HasError diags then mkConfigureResponse diags None None else
  let diags :=
    if IsUnknown (Host config)
    then AddAttributeError "host" "Unknown HashiCups API Host" diags
    else diags in
  let diags :=
    if IsUnknown (BearerToken config)
    then AddAttributeError "password" "Unknown MissionControl API Token" diags
    else diags in
  if HasError diags then mkConfigureResponse diags None None else
  let host := from_env_or_config env "MISSIONCONTROL_HOST" (Host config) in
  let bearerToken :=
    from_env_or_config env "MISSIONCONTROL_TOKEN" (BearerToken config) in
  let intervalStr := pollingIntervalDurationStr env config in
  let timeoutStr := pollingTimeoutDurationStr env config in
  let diags :=
    if String.eqb host ""
    then AddAttributeError "host" "Missing MissionControl API Host" diags
    else diags in
  let diags :=
    if String.eqb bearerToken ""
    then AddAttributeError "bearerToken"
           "Missing MissionControl API PasTokensword" diags
    else diags in
  let pollingIntervalDuration := default 0%Z (ParseDuration intervalStr) in
  let diags :=
    match ParseDuration intervalStr with
    | None => AddAttributeError "polling_intervall_duration"
                "Invalid polling intervall duration" diags
    | Some _ => diags
    end in
  let pollingTimeoutDuration := default 0%Z (ParseDuration timeoutStr) in
  let diags :=
    match ParseDuration timeoutStr with
    | None => AddAttributeError "polling_timeout_duration"
                "Invalid polling timeout duration" diags
    | Some _ => diags
    end in
  if HasError diags then mkConfigureResponse diags None None else
  match NewClientWithResponses host with
  | None =>
      mkConfigureResponse
        (AddError "Unable to Create MissionControl API Client" diags) None None
  | Some client =>
      let data := mkCMProviderData client bearerToken
                    pollingIntervalDuration pollingTimeoutDuration in
      mkConfigureResponse diags (Some data) (Some data)
  end.

End Configure.

End Provider.

(** ** Concrete inputs for the examples *)

Module Sample.

Import Fakeserver.

(** The double quote, and a member [k: v] of a JSON object with string
    value. *)
Definition dq : string := String "034"%char "".

Definition member (k v : string) : string :=
  dq +:+ k +:+ dq +:+ ":" +:+ dq +:+ v +:+ dq.

(** The create body of the acceptance test and a rename. *)
Definition create_body : string :=
  "{" +:+ member "name" "ocs-prov-test" +:+ ","
  +:+ member "serviceClassId" "ENTERPRISE_250_STANDALONE" +:+ ","
  +:+ member "datacenterId" "aks-germanywestcentral" +:+ "}".

Definition patch_body : string := "{" +:+ member "name" "renamed" +:+ "}".

Definition create_jObj : gmap string iface :=
  <["name" := IString "ocs-prov-test"]>
  (<["serviceClassId" := IString "ENTERPRISE_250_STANDALONE"]>
  (<["datacenterId" := IString "aks-germanywestcentral"]> ∅)).

Definition patch_jObj : gmap string iface :=
  <["name" := IString "renamed"]> ∅.

(** The create body with the spool usage given as the string [50]
    instead of a number. *)
Definition spool_body : string :=
  "{" +:+ member "name" "ocs-prov-test" +:+ ","
  +:+ member "serviceClassId" "ENTERPRISE_250_STANDALONE" +:+ ","
  +:+ member "datacenterId" "aks-germanywestcentral" +:+ ","
  +:+ member "maxSpoolUsage" "50" +:+ "}".

Definition spool_jObj : gmap string iface :=
  <["maxSpoolUsage" := IString "50"]> create_jObj.

(** [json.Unmarshal] on the bodies the examples send: the three objects
    above, the empty object, and [null], which leaves the map nil; any
    other body stands for text that is not JSON. *)
Definition Unmarshal (body : string) : option (gmap string iface) :=
  if String.eqb body create_body then Some create_jObj
  else if String.eqb body patch_body then Some patch_jObj
  else if String.eqb body spool_body then Some spool_jObj
  else if String.eqb body "{}" then Some ∅
  else if String.eqb body "null" then Some ∅
  else None.

(** [int32(x)]: the fraction is dropped; out of range the result wraps,
    which is one of the behaviours Go allows. *)
Definition int32 (x : spec_float) : Z :=
  match x with
  | S754_finite s m e =>
      let a := if (0 <=? e)%Z then (Z.pos m * 2 ^ e)%Z
               else (Z.pos m / 2 ^ (- e))%Z in
      let v := if s then (- a)%Z else a in
      ((v + 2 ^ 31) mod 2 ^ 32 - 2 ^ 31)%Z
  | _ => 0%Z
  end.

Definition externals : Externals :=
  {| json_Unmarshal := Unmarshal; int32_of_float64 := int32 |}.

Definition collection : string := "/api/v2/missionControl/eventBrokerServices".

Definition POST (body : string) : Request :=
  mkRequest "POST" collection (Some body).

Definition GET (id : string) : Request :=
  mkRequest "GET" (collection +:+ "/" +:+ id) (Some "").

Definition PATCH (id body : string) : Request :=
  mkRequest "PATCH" (collection +:+ "/" +:+ id) (Some body).

Definition DELETE (id : string) : Request :=
  mkRequest "DELETE" (collection +:+ "/" +:+ id) (Some "").

(** Readings: the identity drawn, and the two clock readings at [s]
    seconds. *)
Definition at_second (sid : string) (s : Z) : Readings :=
  mkReadings sid (s * Second)%Z (s * Second)%Z.

(** A broker created at instant 0 under identity [b1], in state [st]. *)
Definition broker (st : string) : ServiceInfo := {|
  ID := "b1";
  ServiceClassId := "ENTERPRISE_250_STANDALONE";
  DatacenterId := "aks-germanywestcentral";
  Name := "ocs-prov-test";
  State := st;
  MsgVpnName := "test-vpn1";
  EventBrokerVersion := "1.0.0";
  CustomRouterName := "test-router1";
  ClusterName := "test-cluster1";
  MaxSpoolUsage := 20%Z;
  Created := 0%Z;
  Updated := 0%Z;
  ClientUsername := "client-user";
  ClientPassword := "client-passwd" |}.

Definition objects_with (st : string) : gmap string ServiceInfo :=
  <["b1" := broker st]> ∅.

(** The provider side: the client is its host, and the durations the
    examples use. *)
Definition ParseDuration (s : string) : option Duration :=
  if String.eqb s "20s" then Some (20 * Second)%Z
  else if String.eqb s "30m" then Some (1800 * Second)%Z
  else if String.eqb s "1s" then Some Second
  else None.

Definition provider_externals : Provider.Externals :=
  {| Provider.Client := string;
     Provider.ParseDuration := ParseDuration;
     Provider.NewClientWithResponses := fun host => Some host |}.

Definition config : Provider.clusterManagerProviderModel :=
  Provider.mkModel (Provider.StringValue "http://localhost:8091")
    (Provider.StringValue "token") Provider.StringNull
    (Provider.StringValue "1s").

Definition bad_config : Provider.clusterManagerProviderModel :=
  Provider.mkModel (Provider.StringValue "http://localhost:8091")
    (Provider.StringValue "token") Provider.StringNull
    (Provider.StringValue "soon").

End Sample.

Import Fakeserver.

Section FakeserverProperties.
Context `{!Externals}.

(** ** Routing *)

Lemma time_Since_gt (now t : Time) :
  Seconds_gt (time_Since now t) 5 = true <-> (5 * Second < now - t)%Z.
Proof.
  unfold Seconds_gt, time_Since, time_Sub, maxDuration, minDuration, Second.
  rewrite Z.ltb_lt.
  destruct (Z.ltb_spec (2 ^ 63 - 1) (now - t));
    destruct (Z.ltb_spec (now - t) (- 2 ^ 63)); lia.
Qed.

Lemma targets_parts r id :
  targets r id ->
  Nat.eqb (length (Split (Path r))) 5 = false /\
  Nat.eqb (length (Split (Path r))) 6 = true /\
  default "" (Split (Path r) !! 5%nat) = id.
Proof. intros [Hlen Hid]. rewrite Hlen, Hid. auto. Qed.

Ltac route H Hb :=
  unfold serve, handleBrokerServices, parseRequest; rewrite Hb;
  destruct (targets_parts _ _ H) as (-> & -> & ->).

Lemma serve_GET objs rd r id body sInfo :
  targets r id -> Method r = "GET" -> Body r = Some body ->
  objs !! id = Some sInfo ->
  serve objs rd r =
  handleGet (time_Now rd) (time_Now' rd) sInfo id (mkWorld objs new_writer).
Proof.
  intros Ht Hm Hb Hl. route Ht Hb. rewrite Hm, andb_false_r.
  unfold mbind, M_bind, bind, fetch. cbn. rewrite Hl. reflexivity.
Qed.

Lemma serve_PATCH objs rd r id body sInfo :
  targets r id -> Method r = "PATCH" -> Body r = Some body ->
  objs !! id = Some sInfo ->
  serve objs rd r =
  handlePatch (time_Now rd) sInfo id body (mkWorld objs new_writer).
Proof.
  intros Ht Hm Hb Hl. route Ht Hb. rewrite Hm, andb_false_r.
  unfold mbind, M_bind, bind, fetch. cbn. rewrite Hl. reflexivity.
Qed.

Lemma serve_DELETE objs rd r id body sInfo :
  targets r id -> Method r = "DELETE" -> Body r = Some body ->
  objs !! id = Some sInfo ->
  serve objs rd r = handleDelete sInfo id (mkWorld objs new_writer).
Proof.
  intros Ht Hm Hb Hl. route Ht Hb. rewrite Hm, andb_false_r.
  unfold mbind, M_bind, bind, fetch. cbn. rewrite Hl. reflexivity.
Qed.

Lemma serve_missing objs rd r id body :
  targets r id -> Method r <> "POST" -> Body r = Some body ->
  objs !! id = None ->
  serve objs rd r =
  http_Error (StatusText 404) 404 (mkWorld objs new_writer).
Proof.
  intros Ht Hm Hb Hl. route Ht Hb.
  apply String.eqb_neq in Hm. rewrite Hm, andb_false_r.
  unfold mbind, M_bind, bind, fetch. cbn. rewrite Hl. reflexivity.
Qed.

(** ** What each handler does to the store and to the writer *)

Ltac run := unfold mbind, M_bind, mret, M_ret, bind, ret, store, remove,
  w_Header_Add, w_WriteHeader, w_Write, modify_writer; cbn.

Lemma http_Error_run text code objs :
  exists wr,
    http_Error text code (mkWorld objs new_writer) = (Ok tt, mkWorld objs wr)
    /\ w_code wr = Some code
    /\ w_body wr = [PText (text +:+ String "010"%char "")].
Proof. eexists. unfold http_Error. run. eauto. Qed.

Lemma handleGet_pending now now' sInfo id objs :
  State sInfo = "PENDING" ->
  exists wr,
    handleGet now now' sInfo id (mkWorld objs new_writer) =
      (Ok tt, mkWorld (<[id := refresh now now' sInfo]> objs) wr)
    /\ w_code wr = Some 200%Z
    /\ w_body wr = [PJson (get_result (refresh now now' sInfo))].
Proof.
  intros Hs. eexists. unfold handleGet. rewrite Hs. run. eauto.
Qed.

Lemma handleGet_settled now now' sInfo id objs :
  State sInfo <> "PENDING" ->
  exists wr,
    handleGet now now' sInfo id (mkWorld objs new_writer) =
      (Ok tt, mkWorld objs wr)
    /\ w_code wr = Some 200%Z
    /\ w_body wr = [PJson (get_result sInfo)].
Proof.
  intros Hs. apply String.eqb_neq in Hs.
  eexists. unfold handleGet. rewrite Hs. run. eauto.
Qed.

Lemma handleDelete_run sInfo id objs :
  exists wr,
    handleDelete sInfo id (mkWorld objs new_writer) =
      (Ok tt, mkWorld (delete id objs) wr)
    /\ w_code wr = Some 202%Z
    /\ w_body wr = [PJson (delete_result sInfo)].
Proof. eexists. unfold handleDelete. run. eauto. Qed.

Lemma refresh_Updated now now' sInfo :
  Updated (refresh now now' sInfo) = now.
Proof. unfold refresh. destruct (Seconds_gt _ _); reflexivity. Qed.

Lemma refresh_State now now' sInfo :
  State (refresh now now' sInfo) =
  if Seconds_gt (time_Since now' (Created sInfo)) 5
  then "COMPLETED" else State sInfo.
Proof. unfold refresh. cbn. destruct (Seconds_gt _ _); reflexivity. Qed.

(** A GET never touches an object that is not PENDING. *)
Lemma GET_keeps_settled objs rd r id sInfo :
  Method r = "GET" -> objs !! id = Some sInfo -> State sInfo <> "PENDING" ->
  after objs rd r !! id = Some sInfo.
Proof.
  intros Hm Hl Hs. unfold after, serve, handleBrokerServices, parseRequest.
  destruct (Body r) as [body|]; [|exact Hl].
  rewrite Hm, andb_false_r.
  destruct (Nat.eqb (length (Split (Path r))) 6).
  - set (id0 := default "" (Split (Path r) !! 5%nat)).
    unfold mbind, M_bind, bind, fetch. cbv beta iota. cbn [objects].
    destruct (objs !! id0) as [s0|] eqn:Hl0.
    + rewrite String.eqb_refl.
      destruct (String.eqb_spec (State s0) "PENDING") as [Hp|Hp].
      * destruct (handleGet_pending (time_Now rd) (time_Now' rd) s0 id0 objs Hp)
          as (wr & -> & _). cbn.
        rewrite lookup_insert_ne; [exact Hl|]. congruence.
      * destruct (handleGet_settled (time_Now rd) (time_Now' rd) s0 id0 objs Hp)
          as (wr & -> & _). exact Hl.
    + destruct (http_Error_run (StatusText 404) 404 objs) as (wr & -> & _).
      exact Hl.
  - destruct (http_Error_run (StatusText 400) 400 objs) as (wr & -> & _).
    exact Hl.
Qed.

Lemma GETs_keep_settled rs : forall objs id sInfo,
  Forall (fun p => Method (snd p) = "GET") rs ->
  objs !! id = Some sInfo -> State sInfo <> "PENDING" ->
  serve_all objs rs !! id = Some sInfo.
Proof.
  induction rs as [|[rd r] rs IH]; intros objs id sInfo Hall Hl Hs; cbn.
  - exact Hl.
  - inversion Hall as [|? ? Hm Hrest]; subst. cbn in Hm.
    apply IH; [exact Hrest| |exact Hs].
    now apply GET_keeps_settled.
Qed.

(** ** The PENDING to COMPLETED transition *)

(** C1. A GET on a stored PENDING object leaves it COMPLETED in the store
    exactly when more than 5 seconds have passed since its creation time
    at the moment of the check; once the transition is stored, every later
    GET on the object, whatever GETs came in between, reports COMPLETED and
    leaves the store as it is. *)
Theorem get_completes_pending_iff_elapsed objs rd r id body sInfo :
  targets r id -> Method r = "GET" -> Body r = Some body ->
  objs !! id = Some sInfo -> State sInfo = "PENDING" ->
  let objs' := after objs rd r in
  (State <$> objs' !! id = Some "COMPLETED"
     <-> (5 * Second < time_Now' rd - Created sInfo)%Z)
  /\ ((5 * Second < time_Now' rd - Created sInfo)%Z ->
      forall rs rd2 r2 body2,
        Forall (fun p => Method (snd p) = "GET") rs ->
        targets r2 id -> Method r2 = "GET" -> Body r2 = Some body2 ->
        let objs'' := serve_all objs' rs in
        status objs'' rd2 r2 = Some 200%Z
        /\ (reply objs'' rd2 r2 ≫= creationState) = Some (JString "COMPLETED")
        /\ after objs'' rd2 r2 = objs'').
Proof.
  intros Ht Hm Hb Hl Hs objs'.
  assert (Hobjs' : objs' = <[id := refresh (time_Now rd) (time_Now' rd) sInfo]> objs).
  { unfold objs', after. rewrite (serve_GET _ _ _ _ _ _ Ht Hm Hb Hl).
    destruct (handleGet_pending (time_Now rd) (time_Now' rd) sInfo id objs Hs)
      as (wr & -> & _). reflexivity. }
  assert (Hst : State <$> objs' !! id = Some "COMPLETED"
                <-> (5 * Second < time_Now' rd - Created sInfo)%Z).
  { rewrite Hobjs', lookup_insert_eq. cbn. rewrite refresh_State.
    rewrite <- time_Since_gt.
    destruct (Seconds_gt _ _); rewrite ?Hs; split; congruence. }
  split; [exact Hst|].
  intros Hel rs rd2 r2 body2 Hall Ht2 Hm2 Hb2 objs''.
  set (fin := refresh (time_Now rd) (time_Now' rd) sInfo).
  assert (Hdone : State fin = "COMPLETED").
  { apply Hst in Hel. rewrite Hobjs', lookup_insert_eq in Hel. cbn in Hel.
    unfold fin. congruence. }
  assert (Hl'' : objs'' !! id = Some fin).
  { unfold objs''. apply GETs_keep_settled; [exact Hall| |congruence].
    rewrite Hobjs'. apply lookup_insert_eq. }
  assert (Hnp : State fin <> "PENDING") by congruence.
  unfold status, reply, after.
  rewrite (serve_GET _ _ _ _ _ _ Ht2 Hm2 Hb2 Hl'').
  destruct (handleGet_settled (time_Now rd2) (time_Now' rd2) fin id objs'' Hnp)
    as (wr & -> & Hc & Hw).
  cbn. rewrite Hc, Hw. cbn. rewrite Hdone. auto.
Qed.

(** C9. A GET on a PENDING object always stores the record back with its
    last-updated time set to the current time, also when the threshold has
    not passed and the state stays PENDING; a GET on a COMPLETED object
    leaves the store as it was. *)
Theorem get_writes_back_pending_only objs rd r id body sInfo :
  targets r id -> Method r = "GET" -> Body r = Some body ->
  objs !! id = Some sInfo ->
  (State sInfo = "PENDING" ->
     exists sInfo',
       after objs rd r = <[id := sInfo']> objs
       /\ Updated sInfo' = time_Now rd
       /\ (~ (5 * Second < time_Now' rd - Created sInfo)%Z ->
           sInfo' = set_Updated (time_Now rd) sInfo /\ State sInfo' = "PENDING"))
  /\ (State sInfo = "COMPLETED" -> after objs rd r = objs).
Proof.
  intros Ht Hm Hb Hl. unfold after.
  rewrite (serve_GET _ _ _ _ _ _ Ht Hm Hb Hl). split; intros Hs.
  - destruct (handleGet_pending (time_Now rd) (time_Now' rd) sInfo id objs Hs)
      as (wr & -> & _).
    exists (refresh (time_Now rd) (time_Now' rd) sInfo).
    split; [reflexivity|]. split; [apply refresh_Updated|].
    intros Hnot. rewrite <- time_Since_gt in Hnot.
    unfold refresh. cbn.
    destruct (Seconds_gt _ _); [congruence|]. auto.
  - assert (Hnp : State sInfo <> "PENDING") by (rewrite Hs; discriminate).
    destruct (handleGet_settled (time_Now rd) (time_Now' rd) sInfo id objs Hnp)
      as (wr & -> & _).
    reflexivity.
Qed.

(** ** Update *)

Lemma handlePatch_ok now sInfo id body jObj name objs :
  json_Unmarshal body = Some jObj -> index jObj "name" = IString name ->
  let sInfo' := set_Updated now (set_State "PENDING" (set_Name name sInfo)) in
  exists wr,
    handlePatch now sInfo id body (mkWorld objs new_writer) =
      (Ok tt, mkWorld (<[id := sInfo']> objs) wr)
    /\ w_code wr = Some 200%Z
    /\ w_body wr = [PJson (patch_result sInfo')].
Proof.
  intros Hj Hn sInfo'. eexists. unfold handlePatch. rewrite Hj, Hn. run. eauto.
Qed.

(** Whatever the body, a PATCH leaves the store alone or stores a record
    with the identity of the one it was given. *)
Lemma handlePatch_store now sInfo id body objs :
  let objs' := objects (snd (handlePatch now sInfo id body (mkWorld objs new_writer))) in
  objs' = objs \/ exists sInfo', objs' = <[id := sInfo']> objs /\ ID sInfo' = ID sInfo.
Proof.
  unfold handlePatch. destruct (json_Unmarshal body) as [jObj|].
  - destruct (index jObj "name"); run; auto.
    right. eexists. split; reflexivity.
  - destruct (http_Error_run (StatusText 500) 500 objs) as (wr & -> & _). auto.
Qed.

(** C4. A well-formed PATCH on an existing object answers 200 and stores
    the object back with state PENDING, the last-updated time set to the
    current time and the name of the request body; identity, class,
    datacenter, VPN name, broker version, router name, cluster name, spool
    usage, creation time and credentials are as before, and so is every
    other object of the store. *)
Theorem patch_resets_pending_keeps_rest objs rd r id body jObj name sInfo :
  targets r id -> Method r = "PATCH" -> Body r = Some body ->
  objs !! id = Some sInfo ->
  json_Unmarshal body = Some jObj -> index jObj "name" = IString name ->
  status objs rd r = Some 200%Z /\
  exists sInfo',
    after objs rd r = <[id := sInfo']> objs
    /\ State sInfo' = "PENDING"
    /\ Updated sInfo' = time_Now rd
    /\ Name sInfo' = name
    /\ ID sInfo' = ID sInfo
    /\ ServiceClassId sInfo' = ServiceClassId sInfo
    /\ DatacenterId sInfo' = DatacenterId sInfo
    /\ MsgVpnName sInfo' = MsgVpnName sInfo
    /\ EventBrokerVersion sInfo' = EventBrokerVersion sInfo
    /\ CustomRouterName sInfo' = CustomRouterName sInfo
    /\ ClusterName sInfo' = ClusterName sInfo
    /\ MaxSpoolUsage sInfo' = MaxSpoolUsage sInfo
    /\ Created sInfo' = Created sInfo
    /\ ClientUsername sInfo' = ClientUsername sInfo
    /\ ClientPassword sInfo' = ClientPassword sInfo.
Proof.
  intros Ht Hm Hb Hl Hj Hn. unfold status, after.
  rewrite (serve_PATCH _ _ _ _ _ _ Ht Hm Hb Hl).
  destruct (handlePatch_ok (time_Now rd) sInfo id body jObj name objs Hj Hn)
    as (wr & -> & Hc & _).
  split; [exact Hc|]. eexists. split; [reflexivity|]. cbn. repeat split.
Qed.

(** ** Delete and not-found *)

(** C7. A DELETE on a stored identity removes the object, whatever its
    state, and answers 202; a DELETE, GET or PATCH on an identity that is
    not stored answers 404 and leaves the store as it is; so repeating the
    DELETE answers 404. *)
Theorem delete_removes_then_not_found objs rd r id body :
  targets r id -> Body r = Some body ->
  (forall sInfo, Method r = "DELETE" -> objs !! id = Some sInfo ->
     status objs rd r = Some 202%Z
     /\ after objs rd r = delete id objs
     /\ after objs rd r !! id = None
     /\ forall rd2,
          status (after objs rd r) rd2 r = Some 404%Z
          /\ after (after objs rd r) rd2 r = after objs rd r)
  /\ (objs !! id = None ->
      Method r = "DELETE" \/ Method r = "GET" \/ Method r = "PATCH" ->
      status objs rd r = Some 404%Z /\ after objs rd r = objs).
Proof.
  intros Ht Hb.
  assert (Hmiss : forall o rd', Method r <> "POST" -> o !! id = None ->
            status o rd' r = Some 404%Z /\ after o rd' r = o).
  { intros o rd' Hm Hl. unfold status, after.
    rewrite (serve_missing _ _ _ _ _ Ht Hm Hb Hl).
    destruct (http_Error_run (StatusText 404) 404 o) as (wr & -> & Hc & _).
    auto. }
  split.
  - intros sInfo Hm Hl.
    assert (Hafter : after objs rd r = delete id objs).
    { unfold after. rewrite (serve_DELETE _ _ _ _ _ _ Ht Hm Hb Hl).
      destruct (handleDelete_run sInfo id objs) as (wr & -> & _). reflexivity. }
    split.
    { unfold status. rewrite (serve_DELETE _ _ _ _ _ _ Ht Hm Hb Hl).
      destruct (handleDelete_run sInfo id objs) as (wr & -> & Hc & _).
      exact Hc. }
    split; [exact Hafter|].
    assert (Hgone : after objs rd r !! id = None).
    { rewrite Hafter. apply lookup_delete_eq. }
    split; [exact Hgone|].
    intros rd2. apply Hmiss; [rewrite Hm; discriminate|exact Hgone].
  - intros Hl Hm. apply Hmiss; [|exact Hl].
    destruct Hm as [-> | [-> | ->]]; discriminate.
Qed.

(** ** Create *)

Lemma serve_POST objs rd r body :
  creates r -> Body r = Some body ->
  serve objs rd r =
  handleCreate (uuid_New rd) (time_Now rd) body (mkWorld objs new_writer).
Proof.
  intros [Hp Hm] Hb. unfold serve, handleBrokerServices, parseRequest. rewrite Hb, Hm.
  destruct Hp as [-> | [-> ->]]; reflexivity.
Qed.

Lemma assert_string_run v σ :
  assert_string v σ = if is_string v then (Ok (string_of v), σ) else (Panic, σ).
Proof. destruct v; reflexivity. Qed.

Lemma orDefault_run v ds σ :
  orDefault v ds σ = if opt_string v then (Ok (string_or v ds), σ) else (Panic, σ).
Proof.
  destruct v; try reflexivity. unfold orDefault. run.
  destruct (String.eqb s ""); reflexivity.
Qed.

Lemma orDefaultInt32_run v ds σ :
  orDefaultInt32 v ds σ =
  if opt_number v then (Ok (int32_or v ds), σ) else (Panic, σ).
Proof. destruct v; reflexivity. Qed.

Lemma bind_run {A B} (m : M A) (k : A -> M B) σ :
  (m ≫= k) σ =
  match m σ with
  | (Ok a, σ') => k a σ'
  | (Panic, σ') => (Panic, σ')
  end.
Proof. reflexivity. Qed.

Ltac step_create :=
  rewrite bind_run;
  rewrite ?assert_string_run, ?orDefault_run, ?orDefaultInt32_run.

(** The record [handleCreate] builds from an accepted body. *)
Lemma handleCreate_ok sid now body jObj objs :
  json_Unmarshal body = Some jObj -> well_formed_create jObj = true ->
  let sInfo := {|
    ID := sid;
    ServiceClassId := string_of (index jObj "serviceClassId");
    DatacenterId := string_of (index jObj "datacenterId");
    Name := string_of (index jObj "name");
    State := "PENDING";
    MsgVpnName := string_or (index jObj "msgVpnName") "test-vpn1";
    EventBrokerVersion := string_or (index jObj "eventBrokerVersion") "1.0.0";
    CustomRouterName := string_or (index jObj "customRouterName") "test-router1";
    ClusterName := string_or (index jObj "clusterName") "test-cluster1";
    MaxSpoolUsage := int32_or (index jObj "maxSpoolUsage") 20;
    Created := now;
    Updated := 0%Z;
    ClientUsername := "client-user";
    ClientPassword := "client-passwd" |} in
  exists wr,
    handleCreate sid now body (mkWorld objs new_writer) =
      (Ok tt, mkWorld (<[sid := sInfo]> objs) wr)
    /\ w_code wr = Some 202%Z
    /\ w_body wr = [PJson (create_result sInfo)].
Proof.
  intros Hj Hwf sInfo. unfold well_formed_create in Hwf.
  repeat (apply andb_true_iff in Hwf; destruct Hwf as [Hwf ?]).
  eexists. unfold handleCreate. rewrite Hj.
  repeat (step_create;
          match goal with
          | Hb : ?b = true |- context [if ?b then _ else _] => rewrite Hb
          end; cbv beta iota).
  run. eauto.
Qed.

(** A decoded body that fails an assertion: the handler panics before it
    touches the store or the writer. *)
Lemma handleCreate_panic sid now body jObj σ :
  json_Unmarshal body = Some jObj -> well_formed_create jObj = false ->
  handleCreate sid now body σ = (Panic, σ).
Proof.
  intros Hj Hwf. unfold well_formed_create in Hwf.
  unfold handleCreate. rewrite Hj.
  repeat (step_create;
          match goal with
          | |- context [if ?b then _ else _] =>
              destruct b; cbv beta iota; [|reflexivity]
          end).
  discriminate Hwf.
Qed.

Lemma string_or_default v ds :
  v = INil \/ v = IString "" -> string_or v ds = ds.
Proof. intros [-> | ->]; reflexivity. Qed.

(** C10, as the server has it. A create whose body decodes with the
    required members present as strings and every optional member absent
    (or null) or of its type answers 202 and stores a record in which each
    optional string member that is absent (or null) or the empty string has
    its default, [test-cluster1], [test-vpn1], [1.0.0], [test-router1], and
    an absent [maxSpoolUsage] is 20.  A body that decodes but fails one of
    the type assertions, as with an optional member of another type, makes
    the handler panic: nothing is stored. *)
Theorem create_fills_defaults objs rd r body jObj :
  creates r -> Body r = Some body ->
  json_Unmarshal body = Some jObj ->
  (well_formed_create jObj = true ->
     status objs rd r = Some 202%Z /\
     exists sInfo,
       after objs rd r = <[uuid_New rd := sInfo]> objs
       /\ (index jObj "clusterName" = INil
           \/ index jObj "clusterName" = IString ""
           -> ClusterName sInfo = "test-cluster1")
       /\ (index jObj "msgVpnName" = INil \/ index jObj "msgVpnName" = IString ""
           -> MsgVpnName sInfo = "test-vpn1")
       /\ (index jObj "eventBrokerVersion" = INil
           \/ index jObj "eventBrokerVersion" = IString ""
           -> EventBrokerVersion sInfo = "1.0.0")
       /\ (index jObj "customRouterName" = INil
           \/ index jObj "customRouterName" = IString ""
           -> CustomRouterName sInfo = "test-router1")
       /\ (index jObj "maxSpoolUsage" = INil -> MaxSpoolUsage sInfo = 20%Z))
  /\ (well_formed_create jObj = false ->
      status objs rd r = None /\ after objs rd r = objs).
Proof.
  intros Hc Hb Hj. unfold status, after. rewrite (serve_POST _ _ _ _ Hc Hb).
  split; intros Hwf.
  - destruct (handleCreate_ok (uuid_New rd) (time_Now rd) body jObj objs Hj Hwf)
      as (wr & -> & Hcode & _).
    split; [exact Hcode|]. eexists. split; [reflexivity|]. cbn.
    repeat split; try apply string_or_default.
    intros ->. reflexivity.
  - rewrite (handleCreate_panic _ _ _ _ _ Hj Hwf). auto.
Qed.

(** ** Identity *)

Lemma refresh_ID now now' sInfo : ID (refresh now now' sInfo) = ID sInfo.
Proof. unfold refresh. destruct (Seconds_gt _ _); reflexivity. Qed.

(** A request that is not a POST adds no key to the store and changes no
    stored identity. *)
Lemma after_lookup_inv objs rd r id s' :
  Method r <> "POST" -> after objs rd r !! id = Some s' ->
  exists s, objs !! id = Some s /\ ID s' = ID s.
Proof.
  intros Hm. unfold after, serve, handleBrokerServices, parseRequest.
  destruct (Body r) as [body|]; [|cbn; eauto].
  apply String.eqb_neq in Hm. rewrite Hm, andb_false_r.
  destruct (Nat.eqb (length (Split (Path r))) 6).
  - set (id0 := default "" (Split (Path r) !! 5%nat)).
    unfold mbind, M_bind, bind, fetch. cbv beta iota. cbn [objects].
    destruct (objs !! id0) as [s0|] eqn:Hl0.
    + destruct (String.eqb (Method r) "GET").
      { destruct (String.eqb_spec (State s0) "PENDING") as [Hp|Hp].
        - destruct (handleGet_pending (time_Now rd) (time_Now' rd) s0 id0 objs Hp)
            as (wr & -> & _). cbn.
          destruct (decide (id0 = id)) as [->|Hne].
          + rewrite lookup_insert_eq. intros [= <-].
            exists s0. split; [exact Hl0|apply refresh_ID].
          + rewrite lookup_insert_ne by exact Hne. eauto.
        - destruct (handleGet_settled (time_Now rd) (time_Now' rd) s0 id0 objs Hp)
            as (wr & -> & _). cbn. eauto. }
      destruct (String.eqb (Method r) "PATCH").
      { destruct (handlePatch_store (time_Now rd) s0 id0 body objs)
          as [-> | (s1 & -> & Hid)]; [eauto|].
        destruct (decide (id0 = id)) as [->|Hne].
        - rewrite lookup_insert_eq. intros [= <-]. eauto.
        - rewrite lookup_insert_ne by exact Hne. eauto. }
      destruct (String.eqb (Method r) "DELETE").
      { destruct (handleDelete_run s0 id0 objs) as (wr & -> & _). cbn.
        destruct (decide (id0 = id)) as [->|Hne].
        - rewrite lookup_delete_eq. discriminate.
        - rewrite lookup_delete_ne by exact Hne. eauto. }
      destruct (http_Error_run (StatusText 400) 400 objs) as (wr & -> & _).
      cbn. eauto.
    + destruct (http_Error_run (StatusText 404) 404 objs) as (wr & -> & _).
      cbn. eauto.
  - destruct (http_Error_run (StatusText 400) 400 objs) as (wr & -> & _).
    cbn. eauto.
Qed.

Lemma serve_all_lookup_inv rs : forall objs id s',
  Forall (fun p => Method (snd p) <> "POST") rs ->
  serve_all objs rs !! id = Some s' ->
  exists s, objs !! id = Some s /\ ID s' = ID s.
Proof.
  induction rs as [|[rd r] rs IH]; intros objs id s' Hall Hl; cbn in Hl.
  - eauto.
  - inversion Hall as [|? ? Hm Hrest]; subst. cbn in Hm.
    destruct (IH _ _ _ Hrest Hl) as (s1 & Hl1 & Hid1).
    destruct (after_lookup_inv _ _ _ _ _ Hm Hl1) as (s & Hl0 & Hid0).
    exists s. split; [exact Hl0|congruence].
Qed.

(** C6, as the server has it. An accepted create answers 202 and files the
    new object under the identity the generator gave, with the identity as
    its [ID], state PENDING and the current time as creation time, and
    reports the identity; the identity is not compared with the store: an
    object already stored under it is replaced, every object stored under
    another identity is kept, and if the identity is not stored it is
    distinct from every stored one and all stored objects are kept.  After
    any sequence of later requests other than creates (GET, PATCH, DELETE
    and what is answered as an error) the object, as long as it is stored,
    has the same identity. *)
Theorem create_assigns_identity_for_life objs rd r body jObj :
  creates r -> Body r = Some body ->
  json_Unmarshal body = Some jObj -> well_formed_create jObj = true ->
  let sid := uuid_New rd in
  let objs' := after objs rd r in
  status objs rd r = Some 202%Z
  /\ (exists sInfo,
        objs' = <[sid := sInfo]> objs
        /\ ID sInfo = sid /\ State sInfo = "PENDING"
        /\ Created sInfo = time_Now rd)
  /\ (forall id, id <> sid -> objs' !! id = objs !! id)
  /\ (objs !! sid = None ->
      fresh_identity objs rd
      /\ forall id s, objs !! id = Some s -> objs' !! id = Some s)
  /\ (reply objs rd r ≫= jpath ["data"; "resourceId"]) = Some (JString sid)
  /\ (forall rs s',
        Forall (fun p => Method (snd p) <> "POST") rs ->
        serve_all objs' rs !! sid = Some s' -> ID s' = sid).
Proof.
  intros Hc Hb Hj Hwf sid objs'.
  destruct (handleCreate_ok sid (time_Now rd) body jObj objs Hj Hwf)
    as (wr & Hrun & Hcode & Hbody).
  cbv zeta in Hrun, Hbody.
  set (sInfo := mkServiceInfo _ _ _ _ _ _ _ _ _ _ _ _ _ _) in Hrun, Hbody.
  assert (Hobjs' : objs' = <[sid := sInfo]> objs).
  { unfold objs', after. rewrite (serve_POST _ _ _ _ Hc Hb).
    fold sid. rewrite Hrun. reflexivity. }
  assert (Hnew : objs' !! sid = Some sInfo).
  { rewrite Hobjs'. apply lookup_insert_eq. }
  assert (Hother : forall id, id <> sid -> objs' !! id = objs !! id).
  { intros id Hne. rewrite Hobjs'. apply lookup_insert_ne. auto. }
  split; [|split; [|split; [|split; [|split]]]].
  - unfold status. rewrite (serve_POST _ _ _ _ Hc Hb). fold sid.
    rewrite Hrun. exact Hcode.
  - exists sInfo. auto.
  - exact Hother.
  - intros Hfresh.
    assert (Hdistinct : fresh_identity objs rd).
    { intros id s Hl ->. fold sid in Hl. congruence. }
    split; [exact Hdistinct|].
    intros id s Hl. rewrite (Hother id); [exact Hl|]. exact (Hdistinct id s Hl).
  - unfold reply. rewrite (serve_POST _ _ _ _ Hc Hb). fold sid.
    rewrite Hrun. cbn. rewrite Hbody. reflexivity.
  - intros rs s' Hall Hl.
    destruct (serve_all_lookup_inv _ _ _ _ Hall Hl) as (s & Hl0 & Hid).
    rewrite Hnew in Hl0. injection Hl0 as <-. exact Hid.
Qed.

(** ** Malformed creates *)

(** C3, as the server has it. A create whose body [json.Unmarshal] rejects
    is answered 500 and adds nothing to the store.  A create whose body
    decodes but lacks a required member, or has a member of the wrong
    type, stops at a failed type assertion: the handler panics with the
    store as it was and without having written a response. *)
Theorem malformed_create_adds_nothing objs rd r body :
  creates r -> Body r = Some body ->
  (json_Unmarshal body = None -> rejected_with_500 objs rd r)
  /\ (forall jObj,
        json_Unmarshal body = Some jObj -> well_formed_create jObj = false ->
        serve objs rd r = (Panic, mkWorld objs new_writer)
        /\ status objs rd r = None
        /\ after objs rd r = objs).
Proof.
  intros Hc Hb. split.
  - intros Hj. unfold rejected_with_500, status, after.
    rewrite (serve_POST _ _ _ _ Hc Hb). unfold handleCreate. rewrite Hj.
    destruct (http_Error_run (StatusText 500) 500 objs) as (wr & -> & Hcode & _).
    auto.
  - intros jObj Hj Hwf. unfold status, after.
    rewrite (serve_POST _ _ _ _ Hc Hb).
    rewrite (handleCreate_panic _ _ _ _ _ Hj Hwf). auto.
Qed.

(** ** Credentials *)

(** C5, as the server has it. Every GET on a stored object answers with the
    credential structure holding the stored username and password, whatever
    the state of the object; an object made by an accepted create is stored
    PENDING with both credentials already set; the answers to a create, a
    PATCH and a DELETE carry no credential structure. *)
Theorem get_always_carries_credentials objs rd r body :
  Body r = Some body ->
  (forall id sInfo,
     targets r id -> Method r = "GET" -> objs !! id = Some sInfo ->
     exists j,
       reply objs rd r = Some j
       /\ serviceLoginCredential j =
          Some (JObject [("username", JString (ClientUsername sInfo));
                         ("password", JString (ClientPassword sInfo))]))
  /\ (forall jObj,
        creates r -> json_Unmarshal body = Some jObj ->
        well_formed_create jObj = true ->
        exists sInfo j,
          after objs rd r !! uuid_New rd = Some sInfo
          /\ State sInfo = "PENDING"
          /\ ClientUsername sInfo = "client-user"
          /\ ClientPassword sInfo = "client-passwd"
          /\ reply objs rd r = Some j
          /\ serviceLoginCredential j = None)
  /\ (forall id sInfo j,
        targets r id -> objs !! id = Some sInfo ->
        Method r = "PATCH" \/ Method r = "DELETE" ->
        reply objs rd r = Some j ->
        serviceLoginCredential j = None).
Proof.
  intros Hb. split; [|split].
  - intros id sInfo Ht Hm Hl. unfold reply.
    rewrite (serve_GET _ _ _ _ _ _ Ht Hm Hb Hl).
    destruct (String.eqb_spec (State sInfo) "PENDING") as [Hp|Hp].
    + destruct (handleGet_pending (time_Now rd) (time_Now' rd) sInfo id objs Hp)
        as (wr & -> & _ & Hw).
      cbn. rewrite Hw. eexists. split; [reflexivity|].
      unfold refresh. destruct (Seconds_gt _ _); reflexivity.
    + destruct (handleGet_settled (time_Now rd) (time_Now' rd) sInfo id objs Hp)
        as (wr & -> & _ & Hw).
      cbn. rewrite Hw. eexists. split; reflexivity.
  - intros jObj Hc Hj Hwf. unfold reply, after.
    rewrite (serve_POST _ _ _ _ Hc Hb).
    destruct (handleCreate_ok (uuid_New rd) (time_Now rd) body jObj objs Hj Hwf)
      as (wr & -> & _ & Hw).
    cbn. rewrite Hw, lookup_insert_eq. do 2 eexists. repeat split.
  - intros id sInfo j Ht Hl [Hm|Hm]; unfold reply.
    + rewrite (serve_PATCH _ _ _ _ _ _ Ht Hm Hb Hl). unfold handlePatch.
      destruct (json_Unmarshal body) as [jObj|] eqn:Hj.
      * destruct (index jObj "name") as [| | |name| |] eqn:Hn;
          try (run; discriminate).
        unfold handlePatch in *.
        destruct (handlePatch_ok (time_Now rd) sInfo id body jObj name objs
                    Hj Hn) as (wr & Hrun & _ & Hw).
        unfold handlePatch in Hrun. rewrite Hj, Hn in Hrun. rewrite Hrun.
        cbn. rewrite Hw. intros [= <-]. reflexivity.
      * destruct (http_Error_run (StatusText 500) 500 objs) as (wr & -> & _ & Hw).
        cbn. rewrite Hw. discriminate.
    + rewrite (serve_DELETE _ _ _ _ _ _ Ht Hm Hb Hl).
      destruct (handleDelete_run sInfo id objs) as (wr & -> & _ & Hw).
      cbn. rewrite Hw. intros [= <-]. reflexivity.
Qed.

(** ** PENDING after create and update *)

(** C2, as the server has it. An accepted create and an accepted update
    both leave the object PENDING in the store.  The GET that follows
    reports COMPLETED exactly when more than 5 seconds have passed since
    the creation time of the object, and PENDING otherwise; the time of the
    update is not looked at.  So no GET completes an object within the
    threshold of its creation, while the GET after an update of an object
    created more than 5 seconds before reports COMPLETED at once. *)
Theorem pending_until_threshold_since_creation objs rdG rG id bodyG :
  targets rG id -> Method rG = "GET" -> Body rG = Some bodyG ->
  let answer objs1 := reply objs1 rdG rG ≫= creationState in
  (forall rdU rU body jObj name sInfo,
     targets rU id -> Method rU = "PATCH" -> Body rU = Some body ->
     objs !! id = Some sInfo ->
     json_Unmarshal body = Some jObj -> index jObj "name" = IString name ->
     let objs1 := after objs rdU rU in
     State <$> objs1 !! id = Some "PENDING"
     /\ Created <$> objs1 !! id = Some (Created sInfo)
     /\ answer objs1 =
        Some (JString (if (5 * Second <? time_Now' rdG - Created sInfo)%Z
                       then "COMPLETED" else "PENDING")))
  /\ (forall rdC rC body jObj,
        creates rC -> Body rC = Some body ->
        json_Unmarshal body = Some jObj -> well_formed_create jObj = true ->
        uuid_New rdC = id ->
        let objs1 := after objs rdC rC in
        State <$> objs1 !! id = Some "PENDING"
        /\ Created <$> objs1 !! id = Some (time_Now rdC)
        /\ answer objs1 =
           Some (JString (if (5 * Second <? time_Now' rdG - time_Now rdC)%Z
                          then "COMPLETED" else "PENDING"))).
Proof.
  intros Ht Hm Hb answer.
  assert (Hget : forall objs1 s,
            objs1 !! id = Some s -> State s = "PENDING" ->
            answer objs1 =
            Some (JString (if (5 * Second <? time_Now' rdG - Created s)%Z
                           then "COMPLETED" else "PENDING"))).
  { intros objs1 s Hl Hs. unfold answer, reply.
    rewrite (serve_GET _ _ _ _ _ _ Ht Hm Hb Hl).
    destruct (handleGet_pending (time_Now rdG) (time_Now' rdG) s id objs1 Hs)
      as (wr & -> & _ & Hw).
    cbn. rewrite Hw. cbn. rewrite refresh_State, Hs.
    destruct (Seconds_gt _ _) eqn:Hgt.
    - apply time_Since_gt in Hgt. apply Z.ltb_lt in Hgt. now rewrite Hgt.
    - destruct (Z.ltb_spec (5 * Second) (time_Now' rdG - Created s)) as [Hlt|_];
        [|reflexivity].
      apply time_Since_gt in Hlt. congruence. }
  split.
  - intros rdU rU body jObj name sInfo HtU HmU HbU Hl Hj Hn objs1.
    assert (Hl1 : objs1 !! id =
              Some (set_Updated (time_Now rdU)
                      (set_State "PENDING" (set_Name name sInfo)))).
    { unfold objs1, after. rewrite (serve_PATCH _ _ _ _ _ _ HtU HmU HbU Hl).
      destruct (handlePatch_ok (time_Now rdU) sInfo id body jObj name objs Hj Hn)
        as (wr & -> & _). cbn. apply lookup_insert_eq. }
    rewrite Hl1. cbn. repeat split. now rewrite (Hget _ _ Hl1).
  - intros rdC rC body jObj Hc HbC Hj Hwf Hid objs1.
    destruct (handleCreate_ok id (time_Now rdC) body jObj objs Hj Hwf)
      as (wr & Hrun & _).
    cbv zeta in Hrun.
    set (sInfo := mkServiceInfo _ _ _ _ _ _ _ _ _ _ _ _ _ _) in Hrun.
    assert (Hl1 : objs1 !! id = Some sInfo).
    { unfold objs1, after. rewrite (serve_POST _ _ _ _ Hc HbC), Hid, Hrun.
      cbn. apply lookup_insert_eq. }
    rewrite Hl1. cbn. repeat split. now rewrite (Hget _ _ Hl1).
Qed.

End FakeserverProperties.

Section ProviderProperties.
Import Provider.
Context `{!Provider.Externals}.

(** ** Diagnostics *)

Lemma HasError_elem d diags :
  d ∈ diags -> is_error d = true -> HasError diags = true.
Proof.
  intros Hin He. unfold HasError. apply existsb_exists.
  exists d. split; [now apply list_elem_of_In|exact He].
Qed.

Lemma HasError_Append new : forall diags,
  HasError (Append diags new) = HasError diags || HasError new.
Proof.
  induction new as [|d new IH]; intros diags; cbn.
  - now rewrite orb_false_r.
  - case_bool_decide as Hin.
    + rewrite IH. destruct (is_error d) eqn:He; cbn; [|reflexivity].
      rewrite (HasError_elem _ _ Hin He). reflexivity.
    + rewrite IH. unfold HasError at 1. rewrite existsb_app. cbn.
      fold (HasError diags). now rewrite orb_false_r, orb_assoc.
Qed.

Lemma HasError_AddAttributeError path text diags :
  HasError (AddAttributeError path text diags) = true.
Proof.
  unfold AddAttributeError. rewrite HasError_Append. apply orb_true_r.
Qed.

Lemma HasError_AddError text diags : HasError (AddError text diags) = true.
Proof. unfold AddError. rewrite HasError_Append. apply orb_true_r. Qed.

(** ** Polling interval and timeout *)

(** C8. The polling interval and timeout strings come from the environment
    variables POLLING_INTERVAL_DURATION and POLLING_TIMEOUT_DURATION; a
    configuration value that is not null is used instead, whatever the
    environment holds; when neither gives a non-empty string the defaults
    [20s] and [30m] are used.  If either string does not parse as a
    duration, [Configure] ends with an error diagnostic and hands out no
    provider data; if everything is in order the provider data holds the
    two parsed durations. *)
Theorem polling_durations_resolved env req :
  let config := Config req in
  let resp := Configure env req in
  let cfgI := PollingIntervalDuration config in
  let cfgT := PollingTimeoutDuration config in
  let envI := Getenv env "POLLING_INTERVAL_DURATION" in
  let envT := Getenv env "POLLING_TIMEOUT_DURATION" in
  let strI := pollingIntervalDurationStr env config in
  let strT := pollingTimeoutDurationStr env config in
  (IsNull cfgI = false ->
     (forall env', pollingIntervalDurationStr env' config = strI)
     /\ (ValueString cfgI <> "" -> strI = ValueString cfgI))
  /\ (IsNull cfgI = true -> envI <> "" -> strI = envI)
  /\ (IsNull cfgI = true \/ ValueString cfgI = "" -> envI = "" -> strI = "20s")
  /\ (IsNull cfgT = false ->
        (forall env', pollingTimeoutDurationStr env' config = strT)
        /\ (ValueString cfgT <> "" -> strT = ValueString cfgT))
  /\ (IsNull cfgT = true -> envT <> "" -> strT = envT)
  /\ (IsNull cfgT = true \/ ValueString cfgT = "" -> envT = "" -> strT = "30m")
  /\ (ParseDuration strI = None \/ ParseDuration strT = None ->
        HasError (resp_Diagnostics resp) = true
        /\ ResourceData resp = None /\ DataSourceData resp = None)
  /\ (forall client dI dT,
        HasError (Config_diags req) = false ->
        IsUnknown (Host config) = false ->
        IsUnknown (BearerToken config) = false ->
        let host := from_env_or_config env "MISSIONCONTROL_HOST" (Host config) in
        let token :=
          from_env_or_config env "MISSIONCONTROL_TOKEN" (BearerToken config) in
        host <> "" -> token <> "" ->
        ParseDuration strI = Some dI -> ParseDuration strT = Some dT ->
        NewClientWithResponses host = Some client ->
        HasError (resp_Diagnostics resp) = false
        /\ ResourceData resp = Some (mkCMProviderData client token dI dT)
        /\ DataSourceData resp = Some (mkCMProviderData client token dI dT)).
Proof.
  intros config resp cfgI cfgT envI envT strI strT.
  assert (HstrI : strI =
            let s := if negb (IsNull cfgI) then ValueString cfgI else envI in
            if String.eqb s "" then "20s" else s) by reflexivity.
  assert (HstrT : strT =
            let s := if negb (IsNull cfgT) then ValueString cfgT else envT in
            if String.eqb s "" then "30m" else s) by reflexivity.
  cbv zeta in HstrI, HstrT.
  repeat apply conj.
  - intros Hn. split.
    { intros env'. unfold strI, pollingIntervalDurationStr, from_env_or_config.
      fold cfgI. now rewrite Hn. }
    rewrite HstrI, Hn. cbn. intros Hv. apply String.eqb_neq in Hv. now rewrite Hv.
  - intros Hn He. rewrite HstrI, Hn. cbn.
    apply String.eqb_neq in He. now rewrite He.
  - intros Hc He. rewrite HstrI. destruct (IsNull cfgI) eqn:Hn; cbn.
    + now rewrite He.
    + destruct Hc as [Hc|Hc]; [discriminate|]. now rewrite Hc.
  - intros Hn. split.
    { intros env'. unfold strT, pollingTimeoutDurationStr, from_env_or_config.
      fold cfgT. now rewrite Hn. }
    rewrite HstrT, Hn. cbn. intros Hv. apply String.eqb_neq in Hv. now rewrite Hv.
  - intros Hn He. rewrite HstrT, Hn. cbn.
    apply String.eqb_neq in He. now rewrite He.
  - intros Hc He. rewrite HstrT. destruct (IsNull cfgT) eqn:Hn; cbn.
    + now rewrite He.
    + destruct Hc as [Hc|Hc]; [discriminate|]. now rewrite Hc.
  - clear HstrI HstrT. intros Hbad. unfold resp, Configure. cbv zeta.
    fold config strI strT.
    destruct (HasError (Append [] (Config_diags req))) eqn:H0;
      [cbn [resp_Diagnostics ResourceData DataSourceData]; auto|].
    match goal with |- context [if HasError ?d then _ else _] =>
      destruct (HasError d) eqn:H1;
        [cbn [resp_Diagnostics ResourceData DataSourceData]; auto|] end.
    destruct (ParseDuration strI) as [dI|], (ParseDuration strT) as [dT|];
      try (destruct Hbad; discriminate);
      rewrite HasError_AddAttributeError;
      cbn [resp_Diagnostics ResourceData DataSourceData];
      rewrite HasError_AddAttributeError; auto.
  - clear HstrI HstrT.
    intros client dI dT Hd Hh Hb host token Hhost Htoken HI HT Hcl.
    unfold resp, Configure. cbv zeta. fold config strI strT host token.
    rewrite HasError_Append, Hd, Hh, Hb. cbn [HasError existsb orb].
    apply String.eqb_neq in Hhost, Htoken.
    rewrite Hhost, Htoken, HI, HT. cbn [default].
    rewrite HasError_Append, Hd. cbn [HasError existsb orb].
    rewrite Hcl. cbn. rewrite HasError_Append, Hd. auto.
Qed.

End ProviderProperties.

(** * Further properties of the fake server *)

Section FakeserverFurther.
Context `{!Externals}.

Ltac run := unfold mbind, M_bind, mret, M_ret, bind, ret, store, remove,
  w_Header_Add, w_WriteHeader, w_Write, modify_writer; cbn.

(** ** Every request follows one rule of [Step] *)

Lemma served_ok objs rd r objs' wr :
  serve objs rd r = (Ok tt, mkWorld objs' wr) ->
  after objs rd r = objs' /\ status objs rd r = w_code wr.
Proof. intros Hs. unfold after, status. rewrite Hs. auto. Qed.

Lemma served_panic objs rd r objs' wr :
  serve objs rd r = (Panic, mkWorld objs' wr) ->
  after objs rd r = objs' /\ status objs rd r = None.
Proof. intros Hs. unfold after, status. rewrite Hs. auto. Qed.

Lemma handlePatch_rejected now sInfo id body σ :
  json_Unmarshal body = None ->
  handlePatch now sInfo id body σ = http_Error (StatusText 500) 500 σ.
Proof. intros Hj. unfold handlePatch. now rewrite Hj. Qed.

Lemma handlePatch_panic now sInfo id body jObj σ :
  json_Unmarshal body = Some jObj -> is_string (index jObj "name") = false ->
  handlePatch now sInfo id body σ = (Panic, σ).
Proof.
  intros Hj Hn. unfold handlePatch. rewrite Hj.
  destruct (index jObj "name"); try reflexivity. discriminate Hn.
Qed.

(** The test of [handleBrokerServices] for a create. *)
Lemma create_test r :
  (Nat.eqb (length (Split (Path r))) 5
   || (Nat.eqb (length (Split (Path r))) 6
       && String.eqb (default "" (Split (Path r) !! 5%nat)) ""))
  && String.eqb (Method r) "POST" = true
  <-> creates r.
Proof.
  unfold creates. rewrite andb_true_iff, orb_true_iff, andb_true_iff.
  rewrite Nat.eqb_eq, Nat.eqb_eq, !String.eqb_eq.
  split; intros [Hp Hm]; (split; [|exact Hm]).
  - destruct Hp as [H5 | [H6 He]]; [left; exact H5|right].
    split; [exact H6|].
    destruct (Split (Path r) !! 5%nat) as [x|] eqn:Hx; cbn in He.
    + now subst x.
    + apply lookup_ge_None in Hx. lia.
  - destruct Hp as [H5 | [H6 He]]; [left; exact H5|right].
    now rewrite He.
Qed.

Lemma six_parts_target r :
  length (Split (Path r)) = 6%nat ->
  targets r (default "" (Split (Path r) !! 5%nat)).
Proof.
  intros H6. split; [exact H6|].
  destruct (Split (Path r) !! 5%nat) as [x|] eqn:Hx; [reflexivity|].
  apply lookup_ge_None in Hx. lia.
Qed.

Lemma serve_Step objs rd r :
  exists objs' st,
    after objs rd r = objs' /\ status objs rd r = st /\ Step objs rd r objs' st.
Proof.
  destruct (Body r) as [body|] eqn:Hb.
  2:{ exists objs, None. split; [|split; [|now constructor]];
        unfold after, status, serve, handleBrokerServices, parseRequest;
        now rewrite Hb. }
  destruct ((Nat.eqb (length (Split (Path r))) 5
             || (Nat.eqb (length (Split (Path r))) 6
                 && String.eqb (default "" (Split (Path r) !! 5%nat)) ""))
            && String.eqb (Method r) "POST") eqn:Htest.
  - (* a create *)
    assert (Hc : creates r) by now apply create_test.
    pose proof (serve_POST objs rd r body Hc Hb) as Hs.
    destruct (json_Unmarshal body) as [jObj|] eqn:Hj.
    + destruct (well_formed_create jObj) eqn:Hwf.
      * destruct (handleCreate_ok (uuid_New rd) (time_Now rd) body jObj objs
                    Hj Hwf) as (wr & Hrun & Hcode & _).
        rewrite Hrun in Hs. destruct (served_ok _ _ _ _ _ Hs) as [Ha Hst].
        do 2 eexists. split; [exact Ha|]. split; [now rewrite Hst, Hcode|].
        now apply (Step_create _ _ _ body jObj).
      * rewrite (handleCreate_panic _ _ _ _ _ Hj Hwf) in Hs.
        destruct (served_panic _ _ _ _ _ Hs) as [Ha Hst].
        do 2 eexists. split; [exact Ha|]. split; [exact Hst|].
        now apply (Step_create_panic _ _ _ body jObj).
    + unfold handleCreate in Hs. rewrite Hj in Hs.
      destruct (http_Error_run (StatusText 500) 500 objs) as (wr & Hrun & Hcode & _).
      rewrite Hrun in Hs. destruct (served_ok _ _ _ _ _ Hs) as [Ha Hst].
      do 2 eexists. split; [exact Ha|]. split; [now rewrite Hst, Hcode|].
      now apply (Step_create_rejected _ _ _ body).
  - (* not a create *)
    assert (Hnc : ~ creates r).
    { intros Hc. apply create_test in Hc. congruence. }
    assert (Hs : serve objs rd r =
              (if Nat.eqb (length (Split (Path r))) 6
               then
                 match objs !! default "" (Split (Path r) !! 5%nat) with
                 | None => http_Error (StatusText 404) 404
                 | Some sInfo =>
                     let id := default "" (Split (Path r) !! 5%nat) in
                     if String.eqb (Method r) "GET"
                     then handleGet (time_Now rd) (time_Now' rd) sInfo id
                     else if String.eqb (Method r) "PATCH"
                     then handlePatch (time_Now rd) sInfo id body
                     else if String.eqb (Method r) "DELETE"
                     then handleDelete sInfo id
                     else http_Error (StatusText 400) 400
                 end
               else http_Error (StatusText 400) 400)
                (mkWorld objs new_writer)).
    { unfold serve, handleBrokerServices, parseRequest. rewrite Hb, Htest.
      destruct (Nat.eqb (length (Split (Path r))) 6); reflexivity. }
    destruct (Nat.eqb_spec (length (Split (Path r))) 6) as [H6|H6].
    2:{ destruct (http_Error_run (StatusText 400) 400 objs) as (wr & Hrun & Hcode & _).
        rewrite Hrun in Hs. destruct (served_ok _ _ _ _ _ Hs) as [Ha Hst].
        do 2 eexists. split; [exact Ha|]. split; [now rewrite Hst, Hcode|].
        now apply (Step_bad_path _ _ _ body). }
    pose proof (six_parts_target r H6) as Ht.
    set (id := default "" (Split (Path r) !! 5%nat)) in *.
    destruct (objs !! id) as [sInfo|] eqn:Hl.
    2:{ destruct (http_Error_run (StatusText 404) 404 objs) as (wr & Hrun & Hcode & _).
        rewrite Hrun in Hs. destruct (served_ok _ _ _ _ _ Hs) as [Ha Hst].
        do 2 eexists. split; [exact Ha|]. split; [now rewrite Hst, Hcode|].
        now apply (Step_not_found _ _ _ id body). }
    cbv zeta in Hs.
    destruct (String.eqb_spec (Method r) "GET") as [Hg|Hg].
    { destruct (String.eqb_spec (State sInfo) "PENDING") as [Hp|Hp].
      - destruct (handleGet_pending (time_Now rd) (time_Now' rd) sInfo id objs Hp)
          as (wr & Hrun & Hcode & _).
        rewrite Hrun in Hs. destruct (served_ok _ _ _ _ _ Hs) as [Ha Hst].
        do 2 eexists. split; [exact Ha|]. split; [now rewrite Hst, Hcode|].
        now apply (Step_get_pending _ _ _ id body sInfo).
      - destruct (handleGet_settled (time_Now rd) (time_Now' rd) sInfo id objs Hp)
          as (wr & Hrun & Hcode & _).
        rewrite Hrun in Hs. destruct (served_ok _ _ _ _ _ Hs) as [Ha Hst].
        do 2 eexists. split; [exact Ha|]. split; [now rewrite Hst, Hcode|].
        now apply (Step_get_settled _ _ _ id body sInfo). }
    destruct (String.eqb_spec (Method r) "PATCH") as [Hpa|Hpa].
    { destruct (json_Unmarshal body) as [jObj|] eqn:Hj.
      - destruct (index jObj "name") as [| | |name| |] eqn:Hn.
        4:{ destruct (handlePatch_ok (time_Now rd) sInfo id body jObj name objs
                        Hj Hn) as (wr & Hrun & Hcode & _).
            rewrite Hrun in Hs. destruct (served_ok _ _ _ _ _ Hs) as [Ha Hst].
            do 2 eexists. split; [exact Ha|]. split; [now rewrite Hst, Hcode|].
            now apply (Step_patch _ _ _ id body sInfo jObj name). }
        all: rewrite (handlePatch_panic _ _ _ _ jObj _ Hj) in Hs
               by (rewrite Hn; reflexivity);
             destruct (served_panic _ _ _ _ _ Hs) as [Ha Hst];
             do 2 eexists; (split; [exact Ha|]); (split; [exact Hst|]);
             apply (Step_patch_panic _ _ _ id body sInfo jObj); auto;
             rewrite Hn; reflexivity.
      - rewrite (handlePatch_rejected _ _ _ _ _ Hj) in Hs.
        destruct (http_Error_run (StatusText 500) 500 objs) as (wr & Hrun & Hcode & _).
        rewrite Hrun in Hs. destruct (served_ok _ _ _ _ _ Hs) as [Ha Hst].
        do 2 eexists. split; [exact Ha|]. split; [now rewrite Hst, Hcode|].
        now apply (Step_patch_rejected _ _ _ id body sInfo). }
    destruct (String.eqb_spec (Method r) "DELETE") as [Hd|Hd].
    { destruct (handleDelete_run sInfo id objs) as (wr & Hrun & Hcode & _).
      rewrite Hrun in Hs. destruct (served_ok _ _ _ _ _ Hs) as [Ha Hst].
      do 2 eexists. split; [exact Ha|]. split; [now rewrite Hst, Hcode|].
      now apply (Step_delete _ _ _ id body sInfo). }
    destruct (http_Error_run (StatusText 400) 400 objs) as (wr & Hrun & Hcode & _).
    rewrite Hrun in Hs. destruct (served_ok _ _ _ _ _ Hs) as [Ha Hst].
    do 2 eexists. split; [exact Ha|]. split; [now rewrite Hst, Hcode|].
    now apply (Step_bad_method _ _ _ id body sInfo).
Qed.

(** ** Status codes and the store *)

Ltac by_cases objs rd r HS :=
  let Ha := fresh "Hafter" in
  let Hst := fresh "Hstatus" in
  destruct (serve_Step objs rd r) as (?objs' & ?st & Ha & Hst & HS);
  rewrite ?Ha, ?Hst; clear Ha Hst;
  destruct HS.

Lemma targets_inj r id id' : targets r id -> targets r id' -> id = id'.
Proof. intros [_ H1] [_ H2]. congruence. Qed.

(** X1. A request that is not answered 200 or 202 leaves the store as it
    was: error answers, an unreadable body and a panicking handler change
    nothing. *)
Theorem failed_request_keeps_store objs rd r :
  status objs rd r <> Some 200%Z -> status objs rd r <> Some 202%Z ->
  after objs rd r = objs.
Proof.
  by_cases objs rd r HS; intros H200 H202; try reflexivity; congruence.
Qed.

(** X2. A request whose body can be read is answered by the handler with
    200, 202, 400, 404 or 500, or the handler panics and sends nothing;
    200 is only given to a GET or a PATCH and 202 only to a POST or a
    DELETE. *)
Theorem status_by_method objs rd r body :
  Body r = Some body ->
  (status objs rd r = None \/ status objs rd r = Some 200%Z
   \/ status objs rd r = Some 202%Z \/ status objs rd r = Some 400%Z
   \/ status objs rd r = Some 404%Z \/ status objs rd r = Some 500%Z)
  /\ (status objs rd r = None -> fst (serve objs rd r) = Panic)
  /\ (status objs rd r = Some 200%Z -> Method r = "GET" \/ Method r = "PATCH")
  /\ (status objs rd r = Some 202%Z -> Method r = "POST" \/ Method r = "DELETE").
Proof.
  intros Hb.
  assert (Hpanic : status objs rd r = None -> fst (serve objs rd r) = Panic).
  { unfold status.
    destruct (serve objs rd r) as [[[]|] σ] eqn:Hs; [|reflexivity].
    intros Hcode. exfalso. revert Hs Hcode.
    unfold serve, handleBrokerServices, parseRequest. rewrite Hb.
    destruct (_ && String.eqb (Method r) "POST").
    - unfold handleCreate.
      destruct (json_Unmarshal body) as [jObj|] eqn:Hj.
      + destruct (well_formed_create jObj) eqn:Hwf.
        * destruct (handleCreate_ok (uuid_New rd) (time_Now rd) body jObj objs
                      Hj Hwf) as (wr & Hrun & Hc & _).
          unfold handleCreate in Hrun. rewrite Hj in Hrun. rewrite Hrun.
          intros [= <-]. cbn. congruence.
        * pose proof (handleCreate_panic (uuid_New rd) (time_Now rd) body jObj
                        (mkWorld objs new_writer) Hj Hwf) as Hrun.
          unfold handleCreate in Hrun. rewrite Hj in Hrun. rewrite Hrun.
          discriminate.
      + destruct (http_Error_run (StatusText 500) 500 objs) as (wr & -> & Hc & _).
        intros [= <-]. cbn. congruence.
    - destruct (Nat.eqb (length (Split (Path r))) 6).
      2:{ destruct (http_Error_run (StatusText 400) 400 objs) as (wr & -> & Hc & _).
          intros [= <-]. cbn. congruence. }
      set (id := default "" (Split (Path r) !! 5%nat)).
      unfold mbind, M_bind, bind, fetch. cbv beta iota. cbn [objects].
      destruct (objs !! id) as [sInfo|].
      2:{ destruct (http_Error_run (StatusText 404) 404 objs) as (wr & -> & Hc & _).
          intros [= <-]. cbn. congruence. }
      destruct (String.eqb (Method r) "GET").
      { destruct (String.eqb_spec (State sInfo) "PENDING") as [Hp|Hp].
        - destruct (handleGet_pending (time_Now rd) (time_Now' rd) sInfo id objs Hp)
            as (wr & -> & Hc & _). intros [= <-]. cbn. congruence.
        - destruct (handleGet_settled (time_Now rd) (time_Now' rd) sInfo id objs Hp)
            as (wr & -> & Hc & _). intros [= <-]. cbn. congruence. }
      destruct (String.eqb (Method r) "PATCH").
      { destruct (json_Unmarshal body) as [jObj|] eqn:Hj.
        - destruct (is_string (index jObj "name")) eqn:Hn.
          + destruct (index jObj "name") as [| | |name| |] eqn:Hname;
              try discriminate Hn.
            destruct (handlePatch_ok (time_Now rd) sInfo id body jObj name objs
                        Hj Hname) as (wr & -> & Hc & _).
            intros [= <-]. cbn. congruence.
          + rewrite (handlePatch_panic _ _ _ _ jObj _ Hj Hn). discriminate.
        - rewrite (handlePatch_rejected _ _ _ _ _ Hj).
          destruct (http_Error_run (StatusText 500) 500 objs) as (wr & -> & Hc & _).
          intros [= <-]. cbn. congruence. }
      destruct (String.eqb (Method r) "DELETE").
      { destruct (handleDelete_run sInfo id objs) as (wr & -> & Hc & _).
        intros [= <-]. cbn. congruence. }
      destruct (http_Error_run (StatusText 400) 400 objs) as (wr & -> & Hc & _).
      intros [= <-]. cbn. congruence. }
  split; [|split; [exact Hpanic|]]; clear Hpanic; revert Hb;
    by_cases objs rd r HS; intros Hb; try tauto;
    (split; [try discriminate|try discriminate]); intros _; auto.
  match goal with Hc : creates r |- _ => destruct Hc as [_ Hm] end. auto.
Qed.

(** X3. A readable request that is not a create and either has a path of
    other than six parts, or names a stored object with a method other than
    GET, PATCH and DELETE, is answered 400 without a JSON document, and
    the store is left as it was. *)
Theorem unroutable_request_is_400 objs rd r body :
  Body r = Some body -> ~ creates r ->
  length (Split (Path r)) <> 6%nat
  \/ (exists id sInfo, targets r id /\ objs !! id = Some sInfo
        /\ Method r <> "GET" /\ Method r <> "PATCH" /\ Method r <> "DELETE") ->
  status objs rd r = Some 400%Z /\ after objs rd r = objs
  /\ reply objs rd r = None.
Proof.
  intros Hb Hnc Hwhy.
  assert (Hreply : status objs rd r = Some 400%Z -> reply objs rd r = None).
  { unfold status, reply, serve, handleBrokerServices, parseRequest.
    rewrite Hb.
    assert (Htest : (Nat.eqb (length (Split (Path r))) 5
               || (Nat.eqb (length (Split (Path r))) 6
                   && String.eqb (default "" (Split (Path r) !! 5%nat)) ""))
              && String.eqb (Method r) "POST" = false).
    { destruct (_ && _) eqn:Ht; [|reflexivity].
      apply create_test in Ht. contradiction. }
    rewrite Htest. intros _.
    destruct Hwhy as [H6 | (id & sInfo & Ht & Hl & Hg & Hp & Hd)].
    - apply Nat.eqb_neq in H6. rewrite H6.
      destruct (http_Error_run (StatusText 400) 400 objs) as (wr & -> & _ & Hw).
      cbn. now rewrite Hw.
    - destruct (targets_parts _ _ Ht) as (_ & -> & ->).
      unfold mbind, M_bind, bind, fetch. cbv beta iota. cbn [objects].
      rewrite Hl. apply String.eqb_neq in Hg, Hp, Hd. rewrite Hg, Hp, Hd.
      destruct (http_Error_run (StatusText 400) 400 objs) as (wr & -> & _ & Hw).
      cbn. now rewrite Hw. }
  assert (Hst : status objs rd r = Some 400%Z /\ after objs rd r = objs).
  { clear Hreply. revert Hb Hnc Hwhy. by_cases objs rd r HS; intros Hb Hnc Hwhy;
      try contradiction; try congruence; try (split; reflexivity);
      exfalso;
      (destruct Hwhy as [H6 | (id' & s' & Ht' & Hl' & Hg & Hp & Hd)];
       [ match goal with Ht : targets r _ |- _ => destruct Ht as [? _] end;
         contradiction
       | match goal with Ht : targets r _ |- _ =>
           pose proof (targets_inj _ _ _ Ht Ht') as <- end;
         congruence ]). }
  destruct Hst as [Hst Ha]. auto.
Qed.

(** X4. A PATCH on a stored object whose body [json.Unmarshal] rejects is
    answered 500; one whose body decodes but holds no string under [name]
    makes the handler panic without an answer; in both cases the stored
    object, and the rest of the store, stay as they were. *)
Theorem malformed_patch_keeps_object objs rd r id body sInfo :
  targets r id -> Method r = "PATCH" -> Body r = Some body ->
  objs !! id = Some sInfo ->
  (json_Unmarshal body = None ->
     status objs rd r = Some 500%Z /\ after objs rd r = objs)
  /\ (forall jObj,
        json_Unmarshal body = Some jObj ->
        is_string (index jObj "name") = false ->
        status objs rd r = None /\ after objs rd r = objs).
Proof.
  intros Ht Hm Hb Hl.
  pose proof (serve_PATCH objs rd r id body sInfo Ht Hm Hb Hl) as Hs.
  split.
  - intros Hj. rewrite (handlePatch_rejected _ _ _ _ _ Hj) in Hs.
    destruct (http_Error_run (StatusText 500) 500 objs) as (wr & Hrun & Hcode & _).
    rewrite Hrun in Hs. destruct (served_ok _ _ _ _ _ Hs) as [Ha Hst].
    split; [congruence|exact Ha].
  - intros jObj Hj Hn. rewrite (handlePatch_panic _ _ _ _ _ _ Hj Hn) in Hs.
    destruct (served_panic _ _ _ _ _ Hs) as [Ha Hst]. auto.
Qed.

(** ** What requests do to stored objects *)

Lemma same_fixed_refl s : same_fixed s s.
Proof. repeat split. Qed.

Lemma same_fixed_trans s1 s2 s3 :
  same_fixed s1 s2 -> same_fixed s2 s3 -> same_fixed s1 s3.
Proof. unfold same_fixed. intuition congruence. Qed.

Lemma same_fixed_refresh now now' s : same_fixed s (refresh now now' s).
Proof. unfold refresh. destruct (Seconds_gt _ _); repeat split. Qed.

Lemma same_fixed_patched now name s : same_fixed s (patched now name s).
Proof. repeat split. Qed.

(** One step, seen from a key [id] no create draws. *)
Lemma Step_lookup objs rd r objs' st id s' :
  Step objs rd r objs' st ->
  (creates r -> uuid_New rd <> id) ->
  objs' !! id = Some s' ->
  exists s, objs !! id = Some s /\ same_fixed s s'.
Proof.
  intros HS Hfresh Hl'.
  destruct HS; try (exists s'; split; [exact Hl'|apply same_fixed_refl]).
  - rewrite lookup_insert_ne in Hl' by auto.
    exists s'. split; [exact Hl'|apply same_fixed_refl].
  - destruct (decide (id0 = id)) as [->|Hne].
    + rewrite lookup_insert_eq in Hl'. injection Hl' as <-.
      eexists. split; [eassumption|apply same_fixed_refresh].
    + rewrite lookup_insert_ne in Hl' by exact Hne.
      exists s'. split; [exact Hl'|apply same_fixed_refl].
  - destruct (decide (id0 = id)) as [->|Hne].
    + rewrite lookup_insert_eq in Hl'. injection Hl' as <-.
      eexists. split; [eassumption|apply same_fixed_patched].
    + rewrite lookup_insert_ne in Hl' by exact Hne.
      exists s'. split; [exact Hl'|apply same_fixed_refl].
  - destruct (decide (id0 = id)) as [->|Hne].
    + rewrite lookup_delete_eq in Hl'. discriminate Hl'.
    + rewrite lookup_delete_ne in Hl' by exact Hne.
      exists s'. split; [exact Hl'|apply same_fixed_refl].
Qed.

(** X5. Whatever requests are served, as long as no create draws the
    identity of a stored object again, the object, while it is stored,
    keeps its identity, class, datacenter, VPN name, broker version,
    router name, cluster name, spool usage, creation time and credentials;
    and an identity that was not stored does not appear. *)
Theorem fixed_fields_survive rs : forall objs id s',
  Forall (fun p => creates (snd p) -> uuid_New (fst p) <> id) rs ->
  serve_all objs rs !! id = Some s' ->
  exists s, objs !! id = Some s /\ same_fixed s s'.
Proof.
  induction rs as [|[rd r] rs IH]; intros objs id s' Hall Hl; cbn in Hl.
  - exists s'. split; [exact Hl|apply same_fixed_refl].
  - inversion Hall as [|? ? Hfresh Hrest]; subst. cbn in Hfresh.
    destruct (IH _ _ _ Hrest Hl) as (s1 & Hl1 & Hf1).
    destruct (serve_Step objs rd r) as (objs' & st & Ha & _ & HS).
    rewrite Ha in Hl1.
    destruct (Step_lookup _ _ _ _ _ _ _ HS Hfresh Hl1) as (s & Hl0 & Hf0).
    exists s. split; [exact Hl0|]. eapply same_fixed_trans; eassumption.
Qed.

(** X6. Only a POST can add a key to the store, and the key it adds is the
    identity drawn for it; only a DELETE can remove one. *)
Theorem keys_added_and_removed objs rd r :
  dom (after objs rd r) ⊆ {[uuid_New rd]} ∪ dom objs
  /\ (Method r <> "POST" -> dom (after objs rd r) ⊆ dom objs)
  /\ (Method r <> "DELETE" -> dom objs ⊆ dom (after objs rd r)).
Proof.
  assert (Hsame : dom objs ⊆ {[uuid_New rd]} ∪ dom objs
                  /\ (Method r <> "POST" -> dom objs ⊆ dom objs)
                  /\ (Method r <> "DELETE" -> dom objs ⊆ dom objs)).
  { split; [apply union_subseteq_r|]. split; intros _; reflexivity. }
  by_cases objs rd r HS; try exact Hsame.
  - rewrite dom_insert_L. split; [reflexivity|]. split.
    + intros Hm. match goal with Hc : creates r |- _ => destruct Hc as [_ ?] end.
      contradiction.
    + intros _. apply union_subseteq_r.
  - rewrite dom_insert_lookup_L by eauto. exact Hsame.
  - rewrite dom_insert_lookup_L by eauto. exact Hsame.
  - rewrite dom_delete_L. split; [|split].
    + etrans; [apply subseteq_difference_l; reflexivity|apply union_subseteq_r].
    + intros _. apply subseteq_difference_l. reflexivity.
    + intros Hm. contradiction.
Qed.

Lemma key_of_target rd r id :
  targets r id -> Method r <> "POST" -> key_of rd r = id.
Proof.
  intros [_ Hid] Hm. unfold key_of. apply String.eqb_neq in Hm.
  now rewrite Hm, Hid.
Qed.

(** X7. A request changes the store at one key at most: the identity drawn
    for a POST, the last part of the path for any other method.  Every
    other identity keeps its object, or stays absent. *)
Theorem request_touches_one_key objs rd r id :
  id <> key_of rd r -> after objs rd r !! id = objs !! id.
Proof.
  by_cases objs rd r HS; intros Hne; try reflexivity.
  - match goal with Hc : creates r |- _ => destruct Hc as [_ Hm] end.
    unfold key_of in Hne. rewrite Hm in Hne. cbn in Hne.
    now rewrite lookup_insert_ne.
  - rewrite (key_of_target rd r id0) in Hne by (congruence || assumption).
    now rewrite lookup_insert_ne.
  - rewrite (key_of_target rd r id0) in Hne by (congruence || assumption).
    now rewrite lookup_insert_ne.
  - rewrite (key_of_target rd r id0) in Hne by (congruence || assumption).
    now rewrite lookup_delete_ne.
Qed.

Lemma Step_keyed objs rd r objs' st :
  Step objs rd r objs' st -> keyed_by_ID objs -> keyed_by_ID objs'.
Proof.
  intros HS Hk. destruct HS; try exact Hk; intros k s Hl.
  - destruct (decide (uuid_New rd = k)) as [<-|Hne].
    + rewrite lookup_insert_eq in Hl. now injection Hl as <-.
    + rewrite lookup_insert_ne in Hl by exact Hne. now apply Hk.
  - destruct (decide (id = k)) as [<-|Hne].
    + rewrite lookup_insert_eq in Hl. injection Hl as <-.
      rewrite refresh_ID. now apply Hk.
    + rewrite lookup_insert_ne in Hl by exact Hne. now apply Hk.
  - destruct (decide (id = k)) as [<-|Hne].
    + rewrite lookup_insert_eq in Hl. injection Hl as <-. cbn. now apply Hk.
    + rewrite lookup_insert_ne in Hl by exact Hne. now apply Hk.
  - destruct (decide (id = k)) as [<-|Hne].
    + rewrite lookup_delete_eq in Hl. discriminate Hl.
    + rewrite lookup_delete_ne in Hl by exact Hne. now apply Hk.
Qed.

(** X8. If every object of the store is filed under its own [ID], this is
    still so after any sequence of requests. *)
Theorem keyed_by_ID_kept rs : forall objs,
  keyed_by_ID objs -> keyed_by_ID (serve_all objs rs).
Proof.
  induction rs as [|[rd r] rs IH]; intros objs Hk; cbn; [exact Hk|].
  apply IH. destruct (serve_Step objs rd r) as (objs' & st & -> & _ & HS).
  now apply (Step_keyed _ _ _ _ _ HS).
Qed.

Lemma Step_states objs rd r objs' st :
  Step objs rd r objs' st -> states_known objs -> states_known objs'.
Proof.
  intros HS Hk. destruct HS; try exact Hk; intros k s Hl.
  - destruct (decide (uuid_New rd = k)) as [<-|Hne].
    + rewrite lookup_insert_eq in Hl. injection Hl as <-. now left.
    + rewrite lookup_insert_ne in Hl by exact Hne. now apply (Hk k).
  - destruct (decide (id = k)) as [<-|Hne].
    + rewrite lookup_insert_eq in Hl. injection Hl as <-.
      rewrite refresh_State. destruct (Seconds_gt _ _); auto.
    + rewrite lookup_insert_ne in Hl by exact Hne. now apply (Hk k).
  - destruct (decide (id = k)) as [<-|Hne].
    + rewrite lookup_insert_eq in Hl. injection Hl as <-. now left.
    + rewrite lookup_insert_ne in Hl by exact Hne. now apply (Hk k).
  - destruct (decide (id = k)) as [<-|Hne].
    + rewrite lookup_delete_eq in Hl. discriminate Hl.
    + rewrite lookup_delete_ne in Hl by exact Hne. now apply (Hk k).
Qed.

(** X9. If every stored state is PENDING or COMPLETED, this is still so
    after any sequence of requests: the handlers write no other state. *)
Theorem states_known_kept rs : forall objs,
  states_known objs -> states_known (serve_all objs rs).
Proof.
  induction rs as [|[rd r] rs IH]; intros objs Hk; cbn; [exact Hk|].
  apply IH. destruct (serve_Step objs rd r) as (objs' & st & -> & _ & HS).
  now apply (Step_states _ _ _ _ _ HS).
Qed.

(** X10. An object that is stored and not COMPLETED is COMPLETED after a
    request only if the request is a GET on it, it was PENDING, and more
    than 5 seconds have passed since its creation time: no create, PATCH or
    DELETE, and no GET on another object, completes it. *)
Theorem completed_only_by_due_get objs rd r id s s' :
  objs !! id = Some s -> State s <> "COMPLETED" ->
  after objs rd r !! id = Some s' -> State s' = "COMPLETED" ->
  Method r = "GET" /\ targets r id /\ State s = "PENDING"
  /\ (5 * Second < time_Now' rd - Created s)%Z.
Proof.
  by_cases objs rd r HS; intros Hl Hs Hl' Hs'; try congruence.
  - destruct (decide (uuid_New rd = id)) as [<-|Hne].
    + rewrite lookup_insert_eq in Hl'. injection Hl' as <-. discriminate Hs'.
    + rewrite lookup_insert_ne in Hl' by exact Hne. congruence.
  - destruct (decide (id0 = id)) as [->|Hne].
    + rewrite lookup_insert_eq in Hl'. injection Hl' as <-.
      assert (sInfo = s) as -> by congruence.
      rewrite refresh_State in Hs'.
      destruct (Seconds_gt _ _) eqn:Hgt; [|congruence].
      apply time_Since_gt in Hgt. auto.
    + rewrite lookup_insert_ne in Hl' by exact Hne. congruence.
  - destruct (decide (id0 = id)) as [->|Hne].
    + rewrite lookup_insert_eq in Hl'. injection Hl' as <-. discriminate Hs'.
    + rewrite lookup_insert_ne in Hl' by exact Hne. congruence.
  - destruct (decide (id0 = id)) as [->|Hne].
    + rewrite lookup_delete_eq in Hl'. discriminate Hl'.
    + rewrite lookup_delete_ne in Hl' by exact Hne. congruence.
Qed.

(** ** Reading back what was written *)

Lemma handleCreate_created sid now body jObj objs :
  json_Unmarshal body = Some jObj -> well_formed_create jObj = true ->
  exists wr,
    handleCreate sid now body (mkWorld objs new_writer) =
      (Ok tt, mkWorld (<[sid := created sid now jObj]> objs) wr)
    /\ w_code wr = Some 202%Z.
Proof.
  intros Hj Hwf.
  destruct (handleCreate_ok sid now body jObj objs Hj Hwf) as (wr & Hrun & Hc & _).
  exists wr. split; [exact Hrun|exact Hc].
Qed.

Lemma after_create objs rd r body jObj :
  creates r -> Body r = Some body ->
  json_Unmarshal body = Some jObj -> well_formed_create jObj = true ->
  after objs rd r
  = <[uuid_New rd := created (uuid_New rd) (time_Now rd) jObj]> objs.
Proof.
  intros Hc Hb Hj Hwf. unfold after. rewrite (serve_POST _ _ _ _ Hc Hb).
  destruct (handleCreate_created (uuid_New rd) (time_Now rd) body jObj objs
              Hj Hwf) as (wr & -> & _).
  reflexivity.
Qed.

Lemma reply_GET objs rd r id body sInfo :
  targets r id -> Method r = "GET" -> Body r = Some body ->
  objs !! id = Some sInfo ->
  status objs rd r = Some 200%Z
  /\ reply objs rd r =
     Some (get_result (if String.eqb (State sInfo) "PENDING"
                       then refresh (time_Now rd) (time_Now' rd) sInfo
                       else sInfo)).
Proof.
  intros Ht Hm Hb Hl. unfold status, reply.
  rewrite (serve_GET _ _ _ _ _ _ Ht Hm Hb Hl).
  destruct (String.eqb_spec (State sInfo) "PENDING") as [Hp|Hp].
  - destruct (handleGet_pending (time_Now rd) (time_Now' rd) sInfo id objs Hp)
      as (wr & -> & Hc & Hw). cbn. now rewrite Hc, Hw.
  - destruct (handleGet_settled (time_Now rd) (time_Now' rd) sInfo id objs Hp)
      as (wr & -> & Hc & Hw). cbn. now rewrite Hc, Hw.
Qed.

Lemma string_of_is_string v : is_string v = true -> IString (string_of v) = v.
Proof. destruct v; try discriminate. reflexivity. Qed.

(** X11. An accepted create stores what the body holds: the three required
    strings as they are, each optional string that is not empty as it is,
    and a [maxSpoolUsage] number converted to [int32]; the record is filed
    under the identity drawn, whether or not that identity was taken. *)
Theorem create_stores_given_values objs rd r body jObj :
  creates r -> Body r = Some body ->
  json_Unmarshal body = Some jObj -> well_formed_create jObj = true ->
  exists sInfo,
    after objs rd r = <[uuid_New rd := sInfo]> objs
    /\ IString (Name sInfo) = index jObj "name"
    /\ IString (ServiceClassId sInfo) = index jObj "serviceClassId"
    /\ IString (DatacenterId sInfo) = index jObj "datacenterId"
    /\ (forall v, index jObj "clusterName" = IString v -> v <> "" ->
          ClusterName sInfo = v)
    /\ (forall v, index jObj "msgVpnName" = IString v -> v <> "" ->
          MsgVpnName sInfo = v)
    /\ (forall v, index jObj "eventBrokerVersion" = IString v -> v <> "" ->
          EventBrokerVersion sInfo = v)
    /\ (forall v, index jObj "customRouterName" = IString v -> v <> "" ->
          CustomRouterName sInfo = v)
    /\ (forall x, index jObj "maxSpoolUsage" = IFloat64 x ->
          MaxSpoolUsage sInfo = int32_of_float64 x).
Proof.
  intros Hc Hb Hj Hwf.
  exists (created (uuid_New rd) (time_Now rd) jObj).
  split; [now apply (after_create _ _ _ body)|].
  unfold well_formed_create in Hwf.
  repeat (apply andb_true_iff in Hwf; destruct Hwf as [Hwf ?]).
  cbn. repeat split; try (now apply string_of_is_string);
    try (intros v -> Hv; cbn; apply String.eqb_neq in Hv; now rewrite Hv).
  intros x ->. reflexivity.
Qed.

(** X12. The GET that follows an accepted create, on the identity the
    create drew, is answered 200 with that identity, with the name, the
    class and the datacenter of the create body, and with the time of the
    create as creation time. *)
Theorem create_then_get_returns_request
  objs rdC rC body jObj name class datacenter rdG rG bodyG :
  creates rC -> Body rC = Some body ->
  json_Unmarshal body = Some jObj -> well_formed_create jObj = true ->
  index jObj "name" = IString name ->
  index jObj "serviceClassId" = IString class ->
  index jObj "datacenterId" = IString datacenter ->
  targets rG (uuid_New rdC) -> Method rG = "GET" -> Body rG = Some bodyG ->
  let objs1 := after objs rdC rC in
  status objs1 rdG rG = Some 200%Z
  /\ exists j,
       reply objs1 rdG rG = Some j
       /\ jpath ["data"; "id"] j = Some (JString (uuid_New rdC))
       /\ jpath ["data"; "name"] j = Some (JString name)
       /\ jpath ["data"; "serviceClassId"] j = Some (JString class)
       /\ jpath ["data"; "datacenterId"] j = Some (JString datacenter)
       /\ jpath ["data"; "createdTime"] j = Some (JTime (time_Now rdC)).
Proof.
  intros Hc Hb Hj Hwf Hn Hcl Hd Ht Hm HbG objs1.
  assert (Hl : objs1 !! uuid_New rdC
               = Some (created (uuid_New rdC) (time_Now rdC) jObj)).
  { unfold objs1. rewrite (after_create _ _ _ body jObj Hc Hb Hj Hwf).
    apply lookup_insert_eq. }
  destruct (reply_GET objs1 rdG rG _ bodyG _ Ht Hm HbG Hl) as [Hst Hr].
  split; [exact Hst|]. eexists. split; [exact Hr|].
  cbn [State created String.eqb Ascii.eqb Bool.eqb].
  unfold refresh. destruct (Seconds_gt _ _); cbn; rewrite Hn, Hcl, Hd; auto.
Qed.

(** X13. A client polls an object that is PENDING with one GET per reading
    and nothing in between.  After the GETs the object is COMPLETED if for
    at least one of the readings more than 5 seconds had passed since its
    creation time, and PENDING otherwise; its fixed fields are as before. *)
Theorem polling_completes_once_due r id body rds : forall objs sInfo,
  targets r id -> Method r = "GET" -> Body r = Some body ->
  objs !! id = Some sInfo -> State sInfo = "PENDING" ->
  exists sInfo',
    serve_all objs (poll r rds) !! id = Some sInfo'
    /\ State sInfo' = (if existsb (due (Created sInfo)) rds
                       then "COMPLETED" else "PENDING")
    /\ same_fixed sInfo sInfo'.
Proof.
  induction rds as [|rd rds IH]; intros objs sInfo Ht Hm Hb Hl Hs; cbn.
  - exists sInfo. split; [exact Hl|]. split; [exact Hs|apply same_fixed_refl].
  - set (s1 := refresh (time_Now rd) (time_Now' rd) sInfo).
    assert (Ha : after objs rd r = <[id := s1]> objs).
    { unfold after. rewrite (serve_GET _ _ _ _ _ _ Ht Hm Hb Hl).
      destruct (handleGet_pending (time_Now rd) (time_Now' rd) sInfo id objs Hs)
        as (wr & -> & _). reflexivity. }
    assert (Hl1 : after objs rd r !! id = Some s1).
    { rewrite Ha. apply lookup_insert_eq. }
    assert (Hs1 : State s1 = if due (Created sInfo) rd
                             then "COMPLETED" else State sInfo).
    { unfold s1, due. apply refresh_State. }
    destruct (due (Created sInfo) rd) eqn:Hdue; cbn.
    + exists s1. split; [|split; [exact Hs1|apply same_fixed_refresh]].
      apply GETs_keep_settled; [|exact Hl1|rewrite Hs1; discriminate].
      unfold poll. apply Forall_forall. intros [rd' r'] Hin.
      apply list_elem_of_In, in_map_iff in Hin.
      destruct Hin as (? & [= <- <-] & _). exact Hm.
    + rewrite Hs in Hs1.
      destruct (IH _ s1 Ht Hm Hb Hl1 Hs1) as (s' & Hl' & Hs' & Hf').
      assert (HC : Created s1 = Created sInfo).
      { unfold s1, refresh. destruct (Seconds_gt _ _); reflexivity. }
      rewrite HC in Hs'.
      exists s'. split; [exact Hl'|]. split; [exact Hs'|].
      eapply same_fixed_trans; [apply same_fixed_refresh|exact Hf'].
Qed.

(** X14. The GET that follows an accepted PATCH reports the new name, and
    as last-updated time its own reading of the clock: the time the PATCH
    stored is overwritten before the answer is built, because the PATCH
    left the object PENDING. *)
Theorem patch_then_get_returns_new_name
  objs rdU rU id body jObj name sInfo rdG rG bodyG :
  targets rU id -> Method rU = "PATCH" -> Body rU = Some body ->
  objs !! id = Some sInfo ->
  json_Unmarshal body = Some jObj -> index jObj "name" = IString name ->
  targets rG id -> Method rG = "GET" -> Body rG = Some bodyG ->
  let objs1 := after objs rdU rU in
  Updated <$> objs1 !! id = Some (time_Now rdU)
  /\ exists j,
       reply objs1 rdG rG = Some j
       /\ jpath ["data"; "name"] j = Some (JString name)
       /\ jpath ["data"; "updatedTime"] j = Some (JTime (time_Now rdG))
       /\ jpath ["data"; "id"] j = Some (JString (ID sInfo))
       /\ jpath ["data"; "createdTime"] j = Some (JTime (Created sInfo)).
Proof.
  intros Ht Hm Hb Hl Hj Hn HtG HmG HbG objs1.
  assert (Hl1 : objs1 !! id = Some (patched (time_Now rdU) name sInfo)).
  { unfold objs1, after. rewrite (serve_PATCH _ _ _ _ _ _ Ht Hm Hb Hl).
    destruct (handlePatch_ok (time_Now rdU) sInfo id body jObj name objs Hj Hn)
      as (wr & -> & _). apply lookup_insert_eq. }
  split; [now rewrite Hl1|].
  destruct (reply_GET objs1 rdG rG id bodyG _ HtG HmG HbG Hl1) as [_ Hr].
  eexists. split; [exact Hr|].
  cbn [State patched set_Updated set_State set_Name String.eqb Ascii.eqb
       Bool.eqb].
  unfold refresh. destruct (Seconds_gt _ _); cbn; auto.
Qed.

(** ** Paths *)

Lemma Split_not_nil p : Split p <> [].
Proof.
  destruct p as [|c p]; cbn; [discriminate|].
  destruct (Ascii.eqb c "/"); [discriminate|].
  destruct (Split p); discriminate.
Qed.

Lemma Split_no_slash s : no_slash s = true -> Split s = [s].
Proof.
  induction s as [|c s IH]; cbn; [reflexivity|].
  intros Hn. apply andb_true_iff in Hn. destruct Hn as [Hc Hs].
  apply negb_true_iff in Hc. rewrite Hc, (IH Hs). reflexivity.
Qed.

Lemma Split_slash s : no_slash s = false -> (2 <= length (Split s))%nat.
Proof.
  induction s as [|c s IH]; cbn; [discriminate|].
  destruct (Ascii.eqb c "/") eqn:Hc; cbn.
  - intros _. pose proof (Split_not_nil s).
    destruct (Split s); [contradiction|cbn; lia].
  - intros Hs. specialize (IH Hs). destruct (Split s); cbn in *; lia.
Qed.

Lemma Split_app p q : Split (p +:+ "/" +:+ q) = (Split p ++ Split q)%list.
Proof.
  induction p as [|c p IH].
  - reflexivity.
  - change (String c p +:+ "/" +:+ q) with (String c (p +:+ "/" +:+ q)).
    cbn [Split]. rewrite IH. destruct (Ascii.eqb c "/"); [reflexivity|].
    pose proof (Split_not_nil p). destruct (Split p); [contradiction|reflexivity].
Qed.

(** X15. Under a collection path of five parts, as
    [/api/v2/missionControl/eventBrokerServices], a POST on the path, with
    or without a slash at the end, is a create, and a request on the path
    followed by a slash and an identity without a slash addresses that
    identity. *)
Theorem paths_route collection :
  length (Split collection) = 5%nat ->
  (forall body,
     creates (mkRequest "POST" collection body)
     /\ creates (mkRequest "POST" (collection +:+ "/") body))
  /\ (forall method id body,
        no_slash id = true ->
        targets (mkRequest method (collection +:+ "/" +:+ id) body) id).
Proof.
  intros H5. split.
  - intros body. split; (split; [|reflexivity]); cbn [Path].
    + left. exact H5.
    + right. change (collection +:+ "/") with (collection +:+ "/" +:+ "").
      rewrite Split_app. cbn [Split]. rewrite length_app, H5. split; [reflexivity|].
      rewrite lookup_app_r by lia. now rewrite H5.
  - intros method id body Hid. unfold targets. cbn [Path].
    rewrite Split_app, (Split_no_slash id Hid), length_app, H5.
    split; [reflexivity|]. rewrite lookup_app_r by lia. now rewrite H5.
Qed.

(** X16. An identity with a slash in it cannot be addressed: under a
    collection path of five parts, a readable request on the path followed
    by a slash and such an identity has more than six parts and is answered
    400, whatever its method, and the store is left as it was. *)
Theorem slash_in_identity_is_400 objs rd collection method id body :
  length (Split collection) = 5%nat -> no_slash id = false ->
  let r := mkRequest method (collection +:+ "/" +:+ id) (Some body) in
  status objs rd r = Some 400%Z /\ after objs rd r = objs.
Proof.
  intros H5 Hid r.
  assert (Hlen : (7 <= length (Split (Path r)))%nat).
  { unfold r. cbn [Path]. rewrite Split_app, length_app, H5.
    pose proof (Split_slash id Hid). lia. }
  assert (Hnc : ~ creates r).
  { intros [[Hc | [Hc _]] _]; lia. }
  revert Hlen Hnc.
  by_cases objs rd r HS; intros Hlen Hnc; try contradiction;
    try (split; reflexivity);
    try (match goal with Ht : targets r _ |- _ => destruct Ht as [? _] end; lia).
  discriminate.
Qed.

(** ** Answers *)

Lemma written_error text code objs :
  code <> 200%Z -> code <> 202%Z ->
  let out := http_Error text code (mkWorld objs new_writer) in
  written (fst out) (w (snd out)).
Proof.
  intros H200 H202.
  destruct (http_Error_run text code objs) as (wr & -> & Hc & Hw).
  cbn. right. left. eauto 10.
Qed.

Lemma enveloped_results sInfo :
  enveloped (create_result sInfo) /\ enveloped (get_result sInfo)
  /\ enveloped (patch_result sInfo) /\ enveloped (delete_result sInfo).
Proof. repeat split; cbn; eauto. Qed.

Lemma serve_written objs rd r :
  written (fst (serve objs rd r)) (w (snd (serve objs rd r))).
Proof.
  unfold serve, handleBrokerServices, parseRequest.
  destruct (Body r) as [body|]; [|cbn; auto].
  destruct (_ && String.eqb (Method r) "POST").
  - unfold handleCreate.
    destruct (json_Unmarshal body) as [jObj|] eqn:Hj;
      [|now apply written_error].
    destruct (well_formed_create jObj) eqn:Hwf.
    + destruct (handleCreate_ok (uuid_New rd) (time_Now rd) body jObj objs Hj Hwf)
        as (wr & Hrun & Hc & Hw).
      unfold handleCreate in Hrun. rewrite Hj in Hrun. rewrite Hrun. cbn.
      right. right. do 2 eexists. repeat split; eauto; apply enveloped_results.
    + pose proof (handleCreate_panic (uuid_New rd) (time_Now rd) body jObj
                    (mkWorld objs new_writer) Hj Hwf) as Hrun.
      unfold handleCreate in Hrun. rewrite Hj in Hrun. rewrite Hrun. exact I.
  - destruct (Nat.eqb (length (Split (Path r))) 6);
      [|now apply written_error].
    set (id := default "" (Split (Path r) !! 5%nat)).
    unfold mbind, M_bind, bind, fetch. cbv beta iota. cbn [objects].
    destruct (objs !! id) as [sInfo|]; [|now apply written_error].
    destruct (String.eqb (Method r) "GET").
    { destruct (String.eqb_spec (State sInfo) "PENDING") as [Hp|Hp].
      - destruct (handleGet_pending (time_Now rd) (time_Now' rd) sInfo id objs Hp)
          as (wr & -> & Hc & Hw).
        cbn. right. right. do 2 eexists.
        repeat split; eauto; apply enveloped_results.
      - destruct (handleGet_settled (time_Now rd) (time_Now' rd) sInfo id objs Hp)
          as (wr & -> & Hc & Hw).
        cbn. right. right. do 2 eexists.
        repeat split; eauto; apply enveloped_results. }
    destruct (String.eqb (Method r) "PATCH").
    { destruct (json_Unmarshal body) as [jObj|] eqn:Hj.
      - destruct (is_string (index jObj "name")) eqn:Hn.
        + destruct (index jObj "name") as [| | |name| |] eqn:Hname;
            try discriminate Hn.
          destruct (handlePatch_ok (time_Now rd) sInfo id body jObj name objs
                      Hj Hname) as (wr & -> & Hc & Hw).
          cbn. right. right. do 2 eexists.
          repeat split; eauto; apply enveloped_results.
        + rewrite (handlePatch_panic _ _ _ _ jObj _ Hj Hn). exact I.
      - rewrite (handlePatch_rejected _ _ _ _ _ Hj). now apply written_error. }
    destruct (String.eqb (Method r) "DELETE").
    { destruct (handleDelete_run sInfo id objs) as (wr & -> & Hc & Hw).
      cbn. right. right. do 2 eexists.
      repeat split; eauto; apply enveloped_results. }
    now apply written_error.
Qed.

(** X17. A request whose body can be read is answered with a JSON document
    exactly when its status is 200 or 202, and every such document has the
    envelope: the [meta] member with an empty [additionalProp], and a
    [data] member holding an identity, a name and a creation time. *)
Theorem answers_are_enveloped objs rd r body :
  Body r = Some body ->
  (is_Some (reply objs rd r)
   <-> status objs rd r = Some 200%Z \/ status objs rd r = Some 202%Z)
  /\ (forall j, reply objs rd r = Some j -> enveloped j).
Proof.
  intros _.
  pose proof (serve_written objs rd r) as Hw. unfold reply, status.
  destruct (serve objs rd r) as [[[]|] σ]; cbn in Hw.
  - destruct Hw as [[Hc Hb] | [(text & code & Hb & Hc & H200 & H202)
                              | (j & code & Hb & Hc & Hcode & Henv)]];
      rewrite Hb, Hc.
    + split; [|discriminate]. split; [intros [? [=]]|intros [[=]|[=]]].
    + split; [|discriminate].
      split; [intros [? [=]]|intros [[=]|[=]]; congruence].
    + split; [|now intros ? [= <-]].
      split; [intros _; destruct Hcode; subst; auto|eauto].
  - split; [|discriminate]. split; [intros [? [=]]|intros [[=]|[=]]].
Qed.

(** X24. In a store where every object is filed under its own [ID], the
    JSON answer to a request on a stored object names the identity of the
    path: a GET and a PATCH as [id], a DELETE as [resourceId], with the
    operation identity [O] followed by it as [id]. *)
Theorem answers_name_addressed_identity objs rd r id body sInfo j :
  keyed_by_ID objs -> targets r id -> Body r = Some body ->
  objs !! id = Some sInfo -> reply objs rd r = Some j ->
  (Method r = "GET" \/ Method r = "PATCH" ->
     jpath ["data"; "id"] j = Some (JString id))
  /\ (Method r = "DELETE" ->
      jpath ["data"; "resourceId"] j = Some (JString id)
      /\ jpath ["data"; "id"] j = Some (JString ("O" +:+ id))).
Proof.
  intros Hk Ht Hb Hl Hr. pose proof (Hk _ _ Hl) as Hid.
  split; [intros [Hm|Hm]|intros Hm].
  - destruct (reply_GET objs rd r id body sInfo Ht Hm Hb Hl) as [_ Hg].
    rewrite Hg in Hr. injection Hr as <-. cbn.
    destruct (String.eqb _ _); rewrite ?refresh_ID, Hid; reflexivity.
  - revert Hr. unfold reply.
    rewrite (serve_PATCH _ _ _ _ _ _ Ht Hm Hb Hl).
    destruct (json_Unmarshal body) as [jObj|] eqn:Hj.
    + destruct (is_string (index jObj "name")) eqn:Hn.
      * destruct (index jObj "name") as [| | |name| |] eqn:Hname;
          try discriminate Hn.
        destruct (handlePatch_ok (time_Now rd) sInfo id body jObj name objs
                    Hj Hname) as (wr & -> & _ & Hw).
        cbn. rewrite Hw. intros [= <-]. cbn. now rewrite Hid.
      * rewrite (handlePatch_panic _ _ _ _ jObj _ Hj Hn). discriminate.
    + rewrite (handlePatch_rejected _ _ _ _ _ Hj).
      destruct (http_Error_run (StatusText 500) 500 objs) as (wr & -> & _ & Hw).
      cbn. rewrite Hw. discriminate.
  - revert Hr. unfold reply.
    rewrite (serve_DELETE _ _ _ _ _ _ Ht Hm Hb Hl).
    destruct (handleDelete_run sInfo id objs) as (wr & -> & _ & Hw).
    cbn. rewrite Hw. intros [= <-]. cbn. now rewrite Hid.
Qed.

End FakeserverFurther.

(** * Further properties of [Configure] *)

Section ProviderFurther.
Import Provider.
Context `{!Provider.Externals}.

Lemma elem_of_Append d new : forall diags,
  d ∈ Append diags new <-> d ∈ diags \/ d ∈ new.
Proof.
  induction new as [|x new IH]; intros diags; cbn.
  - rewrite elem_of_nil. tauto.
  - case_bool_decide as Hin; rewrite IH, elem_of_cons.
    + split; [tauto|]. intros [?|[->|?]]; auto.
    + rewrite elem_of_app, list_elem_of_singleton. tauto.
Qed.

Lemma NoDup_Append new : forall diags,
  NoDup diags -> NoDup (Append diags new).
Proof.
  induction new as [|x new IH]; intros diags Hnd; cbn; [exact Hnd|].
  case_bool_decide as Hin; apply IH; [exact Hnd|].
  apply NoDup_app. split; [exact Hnd|]. split.
  - intros y Hy Hx. apply list_elem_of_singleton in Hx. now subst y.
  - apply NoDup_singleton.
Qed.

Lemma elem_of_AddAttributeError d path text diags :
  d ∈ AddAttributeError path text diags
  <-> d ∈ diags \/ d = mkDiagnostic SeverityError (Some path) text.
Proof.
  unfold AddAttributeError. rewrite elem_of_Append, list_elem_of_singleton.
  reflexivity.
Qed.

(** The diagnostics [Configure] has gathered when it decides whether to
    build the client, if the configuration was read without error and
    host and token are known. *)
Lemma Configure_checked env req :
  HasError (Config_diags req) = false ->
  IsUnknown (Host (Config req)) = false ->
  IsUnknown (BearerToken (Config req)) = false ->
  let config := Config req in
  let host := from_env_or_config env "MISSIONCONTROL_HOST" (Host config) in
  let token :=
    from_env_or_config env "MISSIONCONTROL_TOKEN" (BearerToken config) in
  let d0 := Append [] (Config_diags req) in
  let d1 := if String.eqb host ""
            then AddAttributeError "host" "Missing MissionControl API Host" d0
            else d0 in
  let d2 := if String.eqb token ""
            then AddAttributeError "bearerToken"
                   "Missing MissionControl API PasTokensword" d1
            else d1 in
  let d3 := match ParseDuration (pollingIntervalDurationStr env config) with
            | None => AddAttributeError "polling_intervall_duration"
                        "Invalid polling intervall duration" d2
            | Some _ => d2
            end in
  let d4 := match ParseDuration (pollingTimeoutDurationStr env config) with
            | None => AddAttributeError "polling_timeout_duration"
                        "Invalid polling timeout duration" d3
            | Some _ => d3
            end in
  resp_Diagnostics (Configure env req) = d4
  \/ (HasError d4 = false /\ NewClientWithResponses host = None
      /\ resp_Diagnostics (Configure env req)
         = AddError "Unable to Create MissionControl API Client" d4).
Proof.
  intros Hd Hh Hb config host token d0 d1 d2 d3 d4.
  unfold Configure. cbv zeta. fold config host token d0.
  assert (H0 : HasError d0 = false).
  { unfold d0. now rewrite HasError_Append, Hd. }
  fold config in Hh, Hb. rewrite H0, Hh, Hb, H0. fold d1 d2 d3 d4.
  destruct (HasError d4) eqn:H4; [now left|].
  destruct (NewClientWithResponses host); [now left|].
  right. auto.
Qed.

(** X18. [Configure] hands out provider data exactly when its response
    carries no error diagnostic, and the data sources and the resources
    are given the same data. *)
Theorem provider_data_iff_no_error env req :
  let resp := Configure env req in
  DataSourceData resp = ResourceData resp
  /\ (ResourceData resp = None <-> HasError (resp_Diagnostics resp) = true).
Proof.
  unfold Configure. cbv zeta.
  repeat match goal with
         | |- context [if HasError ?d then _ else _] =>
             destruct (HasError d) eqn:?;
               [cbn [resp_Diagnostics ResourceData DataSourceData];
                split; [reflexivity|split; auto]|]
         end.
  destruct (NewClientWithResponses _);
    cbn [resp_Diagnostics ResourceData DataSourceData].
  - split; [reflexivity|]. split; [discriminate|congruence].
  - rewrite HasError_AddError. split; [reflexivity|split; auto].
Qed.

(** X19. When the configuration is read without error and the host or the
    token is unknown, [Configure] stops before it looks at the
    environment: the response holds the diagnostic for each unknown value,
    under the paths [host] and [password], no provider data, and is the
    same for every environment. *)
Theorem unknown_host_or_token_stops env req :
  HasError (Config_diags req) = false ->
  IsUnknown (Host (Config req)) = true
  \/ IsUnknown (BearerToken (Config req)) = true ->
  let resp := Configure env req in
  ResourceData resp = None
  /\ (IsUnknown (Host (Config req)) = true ->
      mkDiagnostic SeverityError (Some "host") "Unknown HashiCups API Host"
      ∈ resp_Diagnostics resp)
  /\ (IsUnknown (BearerToken (Config req)) = true ->
      mkDiagnostic SeverityError (Some "password")
        "Unknown MissionControl API Token"
      ∈ resp_Diagnostics resp)
  /\ (forall env', Configure env' req = resp).
Proof.
  intros Hd Hu resp.
  assert (Hresp : forall env',
            Configure env' req =
            mkConfigureResponse
              (let d0 := Append [] (Config_diags req) in
               let d1 := if IsUnknown (Host (Config req))
                         then AddAttributeError "host"
                                "Unknown HashiCups API Host" d0
                         else d0 in
               if IsUnknown (BearerToken (Config req))
               then AddAttributeError "password"
                      "Unknown MissionControl API Token" d1
               else d1) None None).
  { intros env'. unfold Configure. cbv zeta.
    rewrite HasError_Append, Hd. cbn [HasError existsb orb].
    match goal with |- context [if HasError ?d then _ else _] =>
      assert (He : HasError d = true); [|now rewrite He] end.
    destruct (IsUnknown (BearerToken (Config req)));
      [apply HasError_AddAttributeError|].
    destruct Hu as [->| ?]; [apply HasError_AddAttributeError|discriminate]. }
  unfold resp. rewrite (Hresp env). cbn [resp_Diagnostics ResourceData].
  split; [reflexivity|]. split; [|split].
  - intros ->. destruct (IsUnknown (BearerToken (Config req)));
      rewrite ?elem_of_AddAttributeError; auto.
  - intros ->. rewrite elem_of_AddAttributeError. auto.
  - intros env'. apply Hresp.
Qed.

(** X20. Once the configuration is read without error and host and token
    are known, the remaining checks do not stop at the first failure: an
    empty host, an empty token, an interval and a timeout that do not
    parse each leave their own diagnostic in the response. *)
Theorem configuration_errors_reported_together env req :
  HasError (Config_diags req) = false ->
  IsUnknown (Host (Config req)) = false ->
  IsUnknown (BearerToken (Config req)) = false ->
  let config := Config req in
  let diags := resp_Diagnostics (Configure env req) in
  (from_env_or_config env "MISSIONCONTROL_HOST" (Host config) = "" ->
     mkDiagnostic SeverityError (Some "host") "Missing MissionControl API Host"
     ∈ diags)
  /\ (from_env_or_config env "MISSIONCONTROL_TOKEN" (BearerToken config) = "" ->
      mkDiagnostic SeverityError (Some "bearerToken")
        "Missing MissionControl API PasTokensword" ∈ diags)
  /\ (ParseDuration (pollingIntervalDurationStr env config) = None ->
      mkDiagnostic SeverityError (Some "polling_intervall_duration")
        "Invalid polling intervall duration" ∈ diags)
  /\ (ParseDuration (pollingTimeoutDurationStr env config) = None ->
      mkDiagnostic SeverityError (Some "polling_timeout_duration")
        "Invalid polling timeout duration" ∈ diags).
Proof.
  intros Hd Hh Hb config diags.
  assert (Hin : forall d,
            d ∈ (let host := from_env_or_config env "MISSIONCONTROL_HOST"
                               (Host config) in
                 let token := from_env_or_config env "MISSIONCONTROL_TOKEN"
                                (BearerToken config) in
                 let d0 := Append [] (Config_diags req) in
                 let d1 := if String.eqb host ""
                           then AddAttributeError "host"
                                  "Missing MissionControl API Host" d0
                           else d0 in
                 let d2 := if String.eqb token ""
                           then AddAttributeError "bearerToken"
                                  "Missing MissionControl API PasTokensword" d1
                           else d1 in
                 let d3 :=
                   match ParseDuration (pollingIntervalDurationStr env config) with
                   | None => AddAttributeError "polling_intervall_duration"
                               "Invalid polling intervall duration" d2
                   | Some _ => d2
                   end in
                 match ParseDuration (pollingTimeoutDurationStr env config) with
                 | None => AddAttributeError "polling_timeout_duration"
                             "Invalid polling timeout duration" d3
                 | Some _ => d3
                 end) -> d ∈ diags).
  { intros d Hd4. unfold diags.
    destruct (Configure_checked env req Hd Hh Hb) as [-> | (_ & _ & ->)];
      [exact Hd4|].
    unfold AddError. apply elem_of_Append. left. exact Hd4. }
  cbv zeta in Hin.
  repeat apply conj.
  - intros He. apply Hin. rewrite He. cbn [String.eqb].
    destruct (ParseDuration (pollingTimeoutDurationStr env config));
      destruct (ParseDuration (pollingIntervalDurationStr env config));
      destruct (String.eqb _ "");
      rewrite ?elem_of_AddAttributeError; auto 10.
  - intros He. apply Hin. rewrite He. cbn [String.eqb].
    destruct (ParseDuration (pollingTimeoutDurationStr env config));
      destruct (ParseDuration (pollingIntervalDurationStr env config));
      rewrite ?elem_of_AddAttributeError; auto 10.
  - intros He. apply Hin. rewrite He.
    destruct (ParseDuration (pollingTimeoutDurationStr env config));
      rewrite ?elem_of_AddAttributeError; auto 10.
  - intros He. apply Hin. rewrite He.
    rewrite ?elem_of_AddAttributeError; auto 10.
Qed.

(** X21. Every diagnostic of reading the configuration is in the response
    of [Configure], on every path through it, and the response holds no
    diagnostic twice. *)
Theorem diagnostics_kept_without_duplicates env req :
  let diags := resp_Diagnostics (Configure env req) in
  (forall d, d ∈ Config_diags req -> d ∈ diags) /\ NoDup diags.
Proof.
  set (Inv := fun ds : Diagnostics =>
                (forall d, d ∈ Config_diags req -> d ∈ ds) /\ NoDup ds).
  assert (Hnew : forall new ds, Inv ds -> Inv (Append ds new)).
  { intros new ds [Hk Hn]. split.
    - intros d Hd. apply elem_of_Append. auto.
    - now apply NoDup_Append. }
  assert (H0 : Inv (Append [] (Config_diags req))).
  { split.
    - intros d Hd. apply elem_of_Append. auto.
    - apply NoDup_Append, NoDup_nil_2. }
  change (Inv (resp_Diagnostics (Configure env req))).
  unfold Configure. cbv zeta.
  repeat match goal with
         | |- context [if HasError ?d then _ else _] =>
             destruct (HasError d) eqn:?
         | |- context [if ?b then AddAttributeError _ _ _ else _] =>
             destruct b
         | |- context [match ParseDuration ?s with _ => _ end] =>
             destruct (ParseDuration s)
         | |- context [match NewClientWithResponses ?h with _ => _ end] =>
             destruct (NewClientWithResponses h)
         end;
    cbn [resp_Diagnostics]; unfold AddError, AddAttributeError;
    repeat first [exact H0 | apply Hnew].
Qed.

(** What [Configure] has checked when it hands out provider data. *)
Lemma Configure_data_inv env req data :
  ResourceData (Configure env req) = Some data ->
  let config := Config req in
  let host := from_env_or_config env "MISSIONCONTROL_HOST" (Host config) in
  let token :=
    from_env_or_config env "MISSIONCONTROL_TOKEN" (BearerToken config) in
  HasError (Config_diags req) = false
  /\ IsUnknown (Host config) = false /\ IsUnknown (BearerToken config) = false
  /\ host <> "" /\ token <> ""
  /\ NewClientWithResponses host = Some (CM_Client data)
  /\ CM_BearerToken data = token
  /\ ParseDuration (pollingIntervalDurationStr env config)
     = Some (CM_PollingIntervalDuration data)
  /\ ParseDuration (pollingTimeoutDurationStr env config)
     = Some (CM_PollingTimeoutDuration data).
Proof.
  intros Hdata config host token. revert Hdata.
  unfold Configure. cbv zeta. fold config host token.
  rewrite HasError_Append. cbn [HasError existsb orb].
  fold (HasError (Config_diags req)).
  destruct (HasError (Config_diags req)) eqn:Hd; [discriminate|].
  assert (H0 : HasError (Append [] (Config_diags req)) = false).
  { now rewrite HasError_Append, Hd. }
  destruct (IsUnknown (Host config)) eqn:Hh;
    destruct (IsUnknown (BearerToken config)) eqn:Hb;
    rewrite ?HasError_AddAttributeError, ?H0; try discriminate.
  destruct (String.eqb_spec host "") as [Hhost|Hhost];
    destruct (String.eqb_spec token "") as [Htoken|Htoken];
    destruct (ParseDuration (pollingIntervalDurationStr env config)) as [dI|];
    destruct (ParseDuration (pollingTimeoutDurationStr env config)) as [dT|];
    rewrite ?HasError_AddAttributeError, ?H0; try discriminate.
  destruct (NewClientWithResponses host) as [client|]; [|discriminate].
  cbn. intros [= <-]. cbn. auto 10.
Qed.

(** X22. Provider data is only handed out when the configuration was read
    without error, host and token are known and not empty, and the client
    was built for the host; the token in the data is the configured one,
    or that of the environment when none is configured. *)
Theorem provider_data_means_checked env req data :
  ResourceData (Configure env req) = Some data ->
  let config := Config req in
  let host := from_env_or_config env "MISSIONCONTROL_HOST" (Host config) in
  HasError (Config_diags req) = false
  /\ IsUnknown (Host config) = false /\ IsUnknown (BearerToken config) = false
  /\ host <> "" /\ NewClientWithResponses host = Some (CM_Client data)
  /\ CM_BearerToken data <> ""
  /\ (IsNull (BearerToken config) = false ->
      CM_BearerToken data = ValueString (BearerToken config))
  /\ (IsNull (BearerToken config) = true ->
      CM_BearerToken data = Getenv env "MISSIONCONTROL_TOKEN").
Proof.
  intros Hdata config host.
  destruct (Configure_data_inv env req data Hdata)
    as (Hd & Hh & Hb & Hhost & Htoken & Hcl & Ht & _).
  fold config host in Hh, Hb, Hhost, Htoken, Hcl, Ht.
  repeat split; try assumption.
  - now rewrite Ht.
  - intros Hn. rewrite Ht. unfold from_env_or_config. now rewrite Hn.
  - intros Hn. rewrite Ht. unfold from_env_or_config. now rewrite Hn.
Qed.

(** X23. The durations in the provider data are the parsed interval and
    timeout strings.  A polling value of the configuration that is unknown
    or the empty string is not null, so it hides the environment variable:
    the data then holds the parsed default, whatever the variable is set
    to. *)
Theorem provider_data_durations env req data :
  ResourceData (Configure env req) = Some data ->
  let config := Config req in
  ParseDuration (pollingIntervalDurationStr env config)
  = Some (CM_PollingIntervalDuration data)
  /\ ParseDuration (pollingTimeoutDurationStr env config)
     = Some (CM_PollingTimeoutDuration data)
  /\ (PollingIntervalDuration config = StringUnknown
      \/ PollingIntervalDuration config = StringValue "" ->
      ParseDuration "20s" = Some (CM_PollingIntervalDuration data))
  /\ (PollingTimeoutDuration config = StringUnknown
      \/ PollingTimeoutDuration config = StringValue "" ->
      ParseDuration "30m" = Some (CM_PollingTimeoutDuration data)).
Proof.
  intros Hdata config.
  destruct (Configure_data_inv env req data Hdata)
    as (_ & _ & _ & _ & _ & _ & _ & HI & HT).
  fold config in HI, HT.
  split; [exact HI|]. split; [exact HT|]. split.
  - intros Hc. rewrite <- HI.
    unfold pollingIntervalDurationStr, from_env_or_config.
    now destruct Hc as [-> | ->].
  - intros Hc. rewrite <- HT.
    unfold pollingTimeoutDurationStr, from_env_or_config.
    now destruct Hc as [-> | ->].
Qed.

End ProviderFurther.

(** * The theorems at concrete inputs *)

Section Examples.
Import Sample.
#[local] Existing Instance Sample.externals.
#[local] Existing Instance Sample.provider_externals.

Lemma targets_b1 (m body : string) :
  targets (mkRequest m (collection +:+ "/" +:+ "b1") (Some body)) "b1".
Proof. split; reflexivity. Defined.

Lemma creates_POST (body : string) : creates (POST body).
Proof. split; [left|]; reflexivity. Defined.

(** A GET six seconds after creation completes the broker, and the GET a
    second later finds it COMPLETED and changes nothing. *)
Lemma get_completes_pending_iff_elapsed_witness :
  let objs' := after (objects_with "PENDING") (at_second "" 6) (GET "b1") in
  objects_with "PENDING" !! "b1" = Some (broker "PENDING")
  /\ State <$> objs' !! "b1" = Some "COMPLETED"
  /\ status objs' (at_second "" 7) (GET "b1") = Some 200%Z
  /\ (reply objs' (at_second "" 7) (GET "b1") ≫= creationState)
     = Some (JString "COMPLETED")
  /\ after objs' (at_second "" 7) (GET "b1") = objs'.
Proof.
  intros objs'.
  assert (Hl : objects_with "PENDING" !! "b1" = Some (broker "PENDING"))
    by reflexivity.
  destruct (get_completes_pending_iff_elapsed
              (objects_with "PENDING") (at_second "" 6) (GET "b1") "b1" ""
              (broker "PENDING") (targets_b1 "GET" "") ltac:(reflexivity) ltac:(reflexivity) Hl ltac:(reflexivity))
    as [Hiff Hlater].
  assert (Hel : (5 * Second < time_Now' (at_second "" 6) - Created (broker "PENDING"))%Z)
    by reflexivity.
  split; [exact Hl|]. split; [exact (proj2 Hiff Hel)|].
  exact (Hlater Hel [] (at_second "" 7) (GET "b1") "" ltac:(constructor)
           (targets_b1 "GET" "") ltac:(reflexivity) ltac:(reflexivity)).
Defined.

(** A GET one second after creation stores the new last-updated time and
    leaves the broker PENDING. *)
Lemma get_writes_back_pending_only_witness :
  exists sInfo',
    after (objects_with "PENDING") (at_second "" 1) (GET "b1")
    = <["b1" := sInfo']> (objects_with "PENDING")
    /\ Updated sInfo' = Second
    /\ State sInfo' = "PENDING".
Proof.
  destruct (get_writes_back_pending_only
              (objects_with "PENDING") (at_second "" 1) (GET "b1") "b1" ""
              (broker "PENDING") (targets_b1 "GET" "") ltac:(reflexivity) ltac:(reflexivity) ltac:(reflexivity))
    as [Hpending _].
  destruct (Hpending ltac:(reflexivity)) as (sInfo' & Hafter & Hupd & Hstay).
  exists sInfo'. split; [exact Hafter|]. split; [exact Hupd|].
  refine (proj2 (Hstay _)). intros Hlt. vm_compute in Hlt. discriminate Hlt.
Defined.

(** Renaming the completed broker at second 100. *)
Lemma patch_resets_pending_keeps_rest_witness :
  status (objects_with "COMPLETED") (at_second "" 100) (PATCH "b1" patch_body)
  = Some 200%Z
  /\ exists sInfo',
       after (objects_with "COMPLETED") (at_second "" 100) (PATCH "b1" patch_body)
       = <["b1" := sInfo']> (objects_with "COMPLETED")
       /\ State sInfo' = "PENDING" /\ Name sInfo' = "renamed"
       /\ ID sInfo' = "b1" /\ Created sInfo' = 0%Z.
Proof.
  destruct (patch_resets_pending_keeps_rest
              (objects_with "COMPLETED") (at_second "" 100)
              (PATCH "b1" patch_body) "b1" patch_body patch_jObj "renamed"
              (broker "COMPLETED") (targets_b1 "PATCH" patch_body)
              ltac:(reflexivity) ltac:(reflexivity) ltac:(reflexivity) ltac:(reflexivity) ltac:(reflexivity))
    as (Hst & sInfo' & Hafter & Hs & _ & Hn & Hid & _ & _ & _ & _ & _ & _ & _ & Hc & _).
  split; [exact Hst|]. exists sInfo'. auto.
Defined.

(** Deleting the broker, twice. *)
Lemma delete_removes_then_not_found_witness :
  let objs' := after (objects_with "PENDING") (at_second "" 1) (DELETE "b1") in
  status (objects_with "PENDING") (at_second "" 1) (DELETE "b1") = Some 202%Z
  /\ objs' !! "b1" = None
  /\ status objs' (at_second "" 2) (DELETE "b1") = Some 404%Z.
Proof.
  intros objs'.
  destruct (delete_removes_then_not_found
              (objects_with "PENDING") (at_second "" 1) (DELETE "b1") "b1" ""
              (targets_b1 "DELETE" "") ltac:(reflexivity)) as [Hdel _].
  destruct (Hdel (broker "PENDING") ltac:(reflexivity) ltac:(reflexivity)) as (Hst & _ & Hgone & Hagain).
  split; [exact Hst|]. split; [exact Hgone|]. exact (proj1 (Hagain _)).
Defined.

(** The create of the acceptance test leaves every optional member to its
    default; with the spool usage sent as a string nothing is stored. *)
Lemma create_fills_defaults_witness :
  (status ∅ (at_second "u1" 1) (POST create_body) = Some 202%Z
   /\ exists sInfo,
        after ∅ (at_second "u1" 1) (POST create_body) = <["u1" := sInfo]> ∅
        /\ ClusterName sInfo = "test-cluster1"
        /\ MsgVpnName sInfo = "test-vpn1"
        /\ EventBrokerVersion sInfo = "1.0.0"
        /\ CustomRouterName sInfo = "test-router1"
        /\ MaxSpoolUsage sInfo = 20%Z)
  /\ (status ∅ (at_second "u1" 1) (POST spool_body) = None
      /\ after ∅ (at_second "u1" 1) (POST spool_body) = ∅).
Proof.
  split.
  - destruct (proj1 (create_fills_defaults ∅ (at_second "u1" 1)
                       (POST create_body) create_body create_jObj
                       (creates_POST _) ltac:(reflexivity) ltac:(reflexivity))
                ltac:(reflexivity))
      as (Hst & sInfo & Hafter & Hc & Hv & He & Hr & Hm).
    split; [exact Hst|]. exists sInfo.
    repeat split; auto.
  - exact (proj2 (create_fills_defaults ∅ (at_second "u1" 1)
                    (POST spool_body) spool_body spool_jObj
                    (creates_POST _) ltac:(reflexivity) ltac:(reflexivity))
             ltac:(reflexivity)).
Defined.

(** The same create next to the stored broker, followed by a rename and a
    GET of the new object. *)
Lemma create_assigns_identity_for_life_witness :
  let objs' := after (objects_with "PENDING") (at_second "u1" 1) (POST create_body) in
  status (objects_with "PENDING") (at_second "u1" 1) (POST create_body)
  = Some 202%Z
  /\ objs' !! "b1" = Some (broker "PENDING")
  /\ (exists sInfo, objs' = <["u1" := sInfo]> (objects_with "PENDING")
                    /\ ID sInfo = "u1"
                    /\ State sInfo = "PENDING" /\ Created sInfo = Second)
  /\ forall s',
       serve_all objs' [(at_second "" 2, PATCH "u1" patch_body);
                        (at_second "" 9, GET "u1")] !! "u1" = Some s' ->
       ID s' = "u1".
Proof.
  intros objs'.
  destruct (create_assigns_identity_for_life
              (objects_with "PENDING") (at_second "u1" 1) (POST create_body)
              create_body create_jObj (creates_POST _) ltac:(reflexivity)
              ltac:(reflexivity) ltac:(reflexivity))
    as (Hst & Hnew & _ & Hold & _ & Hlife).
  split; [exact Hst|].
  split; [exact (proj2 (Hold ltac:(reflexivity)) "b1" (broker "PENDING")
                   ltac:(reflexivity))|].
  split; [exact Hnew|].
  intros s'. apply Hlife. repeat constructor; discriminate.
Defined.

(** Text that is not JSON is answered 500; the empty object makes the
    handler panic; neither adds an object. *)
Lemma malformed_create_adds_nothing_witness :
  rejected_with_500 (objects_with "PENDING") (at_second "u1" 1) (POST "nojson")
  /\ serve (objects_with "PENDING") (at_second "u1" 1) (POST "{}")
     = (Panic, mkWorld (objects_with "PENDING") new_writer).
Proof.
  split.
  - exact (proj1 (malformed_create_adds_nothing
                    (objects_with "PENDING") (at_second "u1" 1) (POST "nojson")
                    "nojson" (creates_POST _) ltac:(reflexivity)) ltac:(reflexivity)).
  - exact (proj1 (proj2 (malformed_create_adds_nothing
                    (objects_with "PENDING") (at_second "u1" 1) (POST "{}")
                    "{}" (creates_POST _) ltac:(reflexivity)) ∅ ltac:(reflexivity) ltac:(reflexivity))).
Defined.

(** The GET of the pending broker carries both credentials. *)
Lemma get_always_carries_credentials_witness :
  exists j,
    reply (objects_with "PENDING") (at_second "" 1) (GET "b1") = Some j
    /\ serviceLoginCredential j =
       Some (JObject [("username", JString "client-user");
                      ("password", JString "client-passwd")]).
Proof.
  exact (proj1 (get_always_carries_credentials
                  (objects_with "PENDING") (at_second "" 1) (GET "b1") ""
                  ltac:(reflexivity))
           "b1" (broker "PENDING") (targets_b1 "GET" "") ltac:(reflexivity) ltac:(reflexivity)).
Defined.

(** A rename at second 100 of the broker created at instant 0, and the GET
    a second later. *)
Lemma pending_until_threshold_since_creation_witness :
  let objs1 := after (objects_with "COMPLETED") (at_second "" 100)
                 (PATCH "b1" patch_body) in
  State <$> objs1 !! "b1" = Some "PENDING"
  /\ (reply objs1 (at_second "" 101) (GET "b1") ≫= creationState)
     = Some (JString "COMPLETED").
Proof.
  intros objs1.
  destruct (pending_until_threshold_since_creation
              (objects_with "COMPLETED") (at_second "" 101) (GET "b1") "b1" ""
              (targets_b1 "GET" "") ltac:(reflexivity) ltac:(reflexivity)) as [Hupdate _].
  destruct (Hupdate (at_second "" 100) (PATCH "b1" patch_body) patch_body
              patch_jObj "renamed" (broker "COMPLETED")
              (targets_b1 "PATCH" patch_body) ltac:(reflexivity) ltac:(reflexivity) ltac:(reflexivity) ltac:(reflexivity)
              ltac:(reflexivity)) as (Hs & _ & Hanswer).
  split; [exact Hs|exact Hanswer].
Defined.

(** ** Where the specification and the server part *)

(** C2 fails: the broker created at instant 0 is renamed at second 100,
    which leaves it PENDING, and the GET one second later reports
    COMPLETED. *)
Lemma update_then_get_completes_at_once :
  State <$> after (objects_with "COMPLETED") (at_second "" 100)
              (PATCH "b1" patch_body) !! "b1" = Some "PENDING"
  /\ ~ pending_after_update (objects_with "COMPLETED")
         (at_second "" 100) (PATCH "b1" patch_body)
         (at_second "" 101) (GET "b1").
Proof.
  split; [reflexivity|]. intros Hclaim.
  assert (Hle : (time_Now' (at_second "" 101) - time_Now (at_second "" 100)
                 <= 5 * Second)%Z) by (vm_compute; discriminate).
  specialize (Hclaim Hle). vm_compute in Hclaim. discriminate Hclaim.
Qed.

(** C3 fails: the empty object is valid JSON without the required members;
    the create is not answered 500. *)
Lemma empty_object_create_not_rejected :
  json_Unmarshal "{}" = Some ∅
  /\ ~ rejected_with_500 ∅ (at_second "u1" 1) (POST "{}").
Proof.
  split; [reflexivity|]. intros [Hst _]. vm_compute in Hst. discriminate Hst.
Qed.

(** C6 fails: the generator gives the identity of the stored broker; the
    create answers 202 all the same and the stored broker is replaced. *)
Lemma colliding_create_overwrites :
  status (objects_with "COMPLETED") (at_second "b1" 1) (POST create_body)
  = Some 202%Z
  /\ after (objects_with "COMPLETED") (at_second "b1" 1) (POST create_body)
       !! "b1" <> Some (broker "COMPLETED")
  /\ ~ fresh_identity (objects_with "COMPLETED") (at_second "b1" 1).
Proof.
  split; [reflexivity|]. split.
  - intros Hl. vm_compute in Hl. discriminate Hl.
  - intros Hfresh.
    exact (Hfresh "b1" (broker "COMPLETED") ltac:(reflexivity)
             ltac:(reflexivity)).
Qed.

(** C10 fails: the body is valid JSON, the required members are there and
    [clusterName] is absent, but [maxSpoolUsage] is the string [50]; the
    handler panics at the assertion and no record is stored, with or
    without defaults. *)
Lemma string_spool_usage_stores_nothing :
  json_Unmarshal spool_body = Some spool_jObj
  /\ required_present spool_jObj = true
  /\ index spool_jObj "clusterName" = INil
  /\ ~ defaults_stored ∅ (at_second "u1" 1) (POST spool_body) spool_jObj.
Proof.
  repeat split; try reflexivity.
  intros (sInfo & Hl & _). vm_compute in Hl. discriminate Hl.
Qed.

(** C5 fails: the GET of a broker that is PENDING, one second after its
    creation, reports PENDING and carries populated credentials. *)
Lemma pending_get_has_credentials :
  ~ (forall j,
       reply (objects_with "PENDING") (at_second "" 1) (GET "b1") = Some j ->
       no_credentials_while_pending j).
Proof.
  intros Hclaim.
  specialize (Hclaim _ ltac:(reflexivity) ltac:(reflexivity)). vm_compute in Hclaim.
  discriminate Hclaim.
Qed.

(** The configuration of the acceptance test: interval [1s] from the
    configuration, timeout by default; and an interval that does not
    parse. *)
Lemma polling_durations_resolved_witness :
  Provider.pollingIntervalDurationStr ∅ config = "1s"
  /\ Provider.pollingTimeoutDurationStr ∅ config = "30m"
  /\ Provider.ResourceData
       (Provider.Configure ∅ (Provider.mkConfigureRequest [] config))
     = Some (Provider.mkCMProviderData "http://localhost:8091" "token"
               Second (1800 * Second)%Z)
  /\ Provider.ResourceData
       (Provider.Configure ∅ (Provider.mkConfigureRequest [] bad_config))
     = None.
Proof.
  destruct (polling_durations_resolved ∅ (Provider.mkConfigureRequest [] config))
    as (HI & _ & _ & _ & _ & HT & _ & Hok).
  destruct (polling_durations_resolved ∅
              (Provider.mkConfigureRequest [] bad_config))
    as (_ & _ & _ & _ & _ & _ & Hbad & _).
  split; [apply (proj2 (HI ltac:(reflexivity))); discriminate|].
  split; [apply HT; [left|]; reflexivity|].
  split.
  - apply (Hok "http://localhost:8091" Second (1800 * Second)%Z);
      first [reflexivity | discriminate].
  - apply Hbad. left. reflexivity.
Defined.

End Examples.

(** * The further properties at concrete inputs *)

Section FurtherExamples.
Import Sample.
#[local] Existing Instance Sample.externals.
#[local] Existing Instance Sample.provider_externals.

Lemma sample_keyed (st : string) : keyed_by_ID (objects_with st).
Proof.
  intros id s Hl. unfold objects_with in Hl.
  destruct (decide ("b1" = id)) as [<-|Hne].
  - rewrite lookup_insert_eq in Hl. injection Hl as <-. reflexivity.
  - rewrite lookup_insert_ne, lookup_empty in Hl by exact Hne. discriminate Hl.
Defined.

Lemma sample_states : states_known (objects_with "PENDING").
Proof.
  intros id s Hl. unfold objects_with in Hl.
  destruct (decide ("b1" = id)) as [<-|Hne].
  - rewrite lookup_insert_eq in Hl. injection Hl as <-. left. reflexivity.
  - rewrite lookup_insert_ne, lookup_empty in Hl by exact Hne. discriminate Hl.
Defined.

(** A create with text that is not JSON is answered 500 and changes
    nothing. *)
Lemma failed_request_keeps_store_witness :
  after (objects_with "PENDING") (at_second "u1" 1) (POST "nojson")
  = objects_with "PENDING".
Proof.
  apply failed_request_keeps_store;
    intros Hst; vm_compute in Hst; discriminate Hst.
Defined.

(** A PUT on the stored broker. *)
Lemma unroutable_request_is_400_witness :
  let r := mkRequest "PUT" (collection +:+ "/" +:+ "b1") (Some "") in
  status (objects_with "PENDING") (at_second "" 1) r = Some 400%Z
  /\ after (objects_with "PENDING") (at_second "" 1) r = objects_with "PENDING"
  /\ reply (objects_with "PENDING") (at_second "" 1) r = None.
Proof.
  intros r. apply (unroutable_request_is_400 _ _ r "").
  - reflexivity.
  - intros [_ Hm]. discriminate Hm.
  - right. exists "b1", (broker "PENDING").
    split; [apply (targets_b1 "PUT" "")|]. split; [reflexivity|].
    repeat split; discriminate.
Defined.

(** A PATCH with text that is not JSON, and one with the empty object. *)
Lemma malformed_patch_keeps_object_witness :
  (status (objects_with "COMPLETED") (at_second "" 1) (PATCH "b1" "nojson")
   = Some 500%Z
   /\ after (objects_with "COMPLETED") (at_second "" 1) (PATCH "b1" "nojson")
      = objects_with "COMPLETED")
  /\ (status (objects_with "COMPLETED") (at_second "" 1) (PATCH "b1" "{}")
      = None
      /\ after (objects_with "COMPLETED") (at_second "" 1) (PATCH "b1" "{}")
         = objects_with "COMPLETED").
Proof.
  split.
  - exact (proj1 (malformed_patch_keeps_object
                    (objects_with "COMPLETED") (at_second "" 1)
                    (PATCH "b1" "nojson") "b1" "nojson" (broker "COMPLETED")
                    (targets_b1 "PATCH" "nojson") ltac:(reflexivity)
                    ltac:(reflexivity) ltac:(reflexivity))
             ltac:(reflexivity)).
  - exact (proj2 (malformed_patch_keeps_object
                    (objects_with "COMPLETED") (at_second "" 1)
                    (PATCH "b1" "{}") "b1" "{}" (broker "COMPLETED")
                    (targets_b1 "PATCH" "{}") ltac:(reflexivity)
                    ltac:(reflexivity) ltac:(reflexivity))
             ∅ ltac:(reflexivity) ltac:(reflexivity)).
Defined.

(** The broker after a create of another object, a rename and a GET. *)
Lemma fixed_fields_survive_witness :
  let rs := [(at_second "u1" 1, POST create_body);
             (at_second "" 2, PATCH "b1" patch_body);
             (at_second "" 9, GET "b1")] in
  let s' := refresh (9 * Second)%Z (9 * Second)%Z
              (patched (2 * Second)%Z "renamed" (broker "COMPLETED")) in
  serve_all (objects_with "COMPLETED") rs !! "b1" = Some s'
  /\ exists s, objects_with "COMPLETED" !! "b1" = Some s /\ same_fixed s s'.
Proof.
  intros rs s'.
  assert (Hl : serve_all (objects_with "COMPLETED") rs !! "b1" = Some s')
    by (vm_compute; reflexivity).
  split; [exact Hl|].
  apply (fixed_fields_survive rs _ _ _); [|exact Hl].
  repeat constructor; cbn; intros _; discriminate.
Defined.

(** A create under identity [u1] leaves the broker [b1] alone. *)
Lemma request_touches_one_key_witness :
  after (objects_with "PENDING") (at_second "u1" 1) (POST create_body) !! "b1"
  = objects_with "PENDING" !! "b1".
Proof.
  apply request_touches_one_key. intros Hk. vm_compute in Hk. discriminate Hk.
Defined.

Lemma keyed_by_ID_kept_witness :
  keyed_by_ID
    (serve_all (objects_with "PENDING")
       [(at_second "u1" 1, POST create_body); (at_second "" 2, DELETE "b1")]).
Proof. apply keyed_by_ID_kept. apply sample_keyed. Defined.

Lemma states_known_kept_witness :
  states_known
    (serve_all (objects_with "PENDING")
       [(at_second "u1" 1, POST create_body); (at_second "" 7, GET "u1")]).
Proof. apply states_known_kept. apply sample_states. Defined.

(** The GET at second 6 that completes the broker. *)
Lemma completed_only_by_due_get_witness :
  Method (GET "b1") = "GET" /\ targets (GET "b1") "b1"
  /\ State (broker "PENDING") = "PENDING"
  /\ (5 * Second
      < time_Now' (at_second "" 6) - Created (broker "PENDING"))%Z.
Proof.
  apply (completed_only_by_due_get (objects_with "PENDING") (at_second "" 6)
           (GET "b1") "b1" (broker "PENDING")
           (refresh (6 * Second)%Z (6 * Second)%Z (broker "PENDING")));
    first [reflexivity | discriminate].
Defined.

Lemma create_stores_given_values_witness :
  exists sInfo,
    after ∅ (at_second "u1" 1) (POST create_body) = <["u1" := sInfo]> ∅
    /\ IString (Name sInfo) = IString "ocs-prov-test"
    /\ IString (ServiceClassId sInfo) = IString "ENTERPRISE_250_STANDALONE"
    /\ IString (DatacenterId sInfo) = IString "aks-germanywestcentral".
Proof.
  destruct (create_stores_given_values ∅ (at_second "u1" 1) (POST create_body)
              create_body create_jObj (creates_POST _) ltac:(reflexivity)
              ltac:(reflexivity) ltac:(reflexivity))
    as (sInfo & Ha & Hn & Hc & Hd & _).
  exists sInfo. auto.
Defined.

Lemma create_then_get_returns_request_witness :
  let objs1 := after ∅ (at_second "u1" 1) (POST create_body) in
  status objs1 (at_second "" 2) (GET "u1") = Some 200%Z
  /\ exists j,
       reply objs1 (at_second "" 2) (GET "u1") = Some j
       /\ jpath ["data"; "id"] j = Some (JString "u1")
       /\ jpath ["data"; "name"] j = Some (JString "ocs-prov-test")
       /\ jpath ["data"; "serviceClassId"] j
          = Some (JString "ENTERPRISE_250_STANDALONE")
       /\ jpath ["data"; "datacenterId"] j
          = Some (JString "aks-germanywestcentral")
       /\ jpath ["data"; "createdTime"] j = Some (JTime Second).
Proof.
  exact (create_then_get_returns_request ∅ (at_second "u1" 1)
           (POST create_body) create_body create_jObj "ocs-prov-test"
           "ENTERPRISE_250_STANDALONE" "aks-germanywestcentral"
           (at_second "" 2) (GET "u1") "" (creates_POST _)
           ltac:(reflexivity) ltac:(reflexivity) ltac:(reflexivity)
           ltac:(reflexivity) ltac:(reflexivity) ltac:(reflexivity)
           ltac:(split; reflexivity) ltac:(reflexivity) ltac:(reflexivity)).
Defined.

(** Polling the pending broker at seconds 1, 3 and 6. *)
Lemma polling_completes_once_due_witness :
  exists sInfo',
    serve_all (objects_with "PENDING")
      (poll (GET "b1") [at_second "" 1; at_second "" 3; at_second "" 6])
    !! "b1" = Some sInfo'
    /\ State sInfo' = "COMPLETED"
    /\ same_fixed (broker "PENDING") sInfo'.
Proof.
  exact (polling_completes_once_due (GET "b1") "b1" ""
           [at_second "" 1; at_second "" 3; at_second "" 6]
           (objects_with "PENDING") (broker "PENDING")
           (targets_b1 "GET" "") ltac:(reflexivity) ltac:(reflexivity)
           ltac:(reflexivity) ltac:(reflexivity)).
Defined.

Lemma patch_then_get_returns_new_name_witness :
  let objs1 := after (objects_with "COMPLETED") (at_second "" 100)
                 (PATCH "b1" patch_body) in
  Updated <$> objs1 !! "b1" = Some (100 * Second)%Z
  /\ exists j,
       reply objs1 (at_second "" 101) (GET "b1") = Some j
       /\ jpath ["data"; "name"] j = Some (JString "renamed")
       /\ jpath ["data"; "updatedTime"] j = Some (JTime (101 * Second)%Z)
       /\ jpath ["data"; "id"] j = Some (JString "b1")
       /\ jpath ["data"; "createdTime"] j = Some (JTime 0%Z).
Proof.
  exact (patch_then_get_returns_new_name (objects_with "COMPLETED")
           (at_second "" 100) (PATCH "b1" patch_body) "b1" patch_body
           patch_jObj "renamed" (broker "COMPLETED") (at_second "" 101)
           (GET "b1") "" (targets_b1 "PATCH" patch_body) ltac:(reflexivity)
           ltac:(reflexivity) ltac:(reflexivity) ltac:(reflexivity)
           ltac:(reflexivity) (targets_b1 "GET" "") ltac:(reflexivity)
           ltac:(reflexivity)).
Defined.

Lemma paths_route_witness :
  creates (POST create_body)
  /\ creates (mkRequest "POST" (collection +:+ "/") (Some create_body))
  /\ targets (GET "b1") "b1".
Proof.
  destruct (paths_route collection ltac:(reflexivity)) as [Hc Ht].
  split; [exact (proj1 (Hc (Some create_body)))|].
  split; [exact (proj2 (Hc (Some create_body)))|].
  exact (Ht "GET" "b1" (Some "") ltac:(reflexivity)).
Defined.

Lemma slash_in_identity_is_400_witness :
  status (objects_with "PENDING") (at_second "" 1) (GET "b1/x") = Some 400%Z
  /\ after (objects_with "PENDING") (at_second "" 1) (GET "b1/x")
     = objects_with "PENDING".
Proof.
  exact (slash_in_identity_is_400 (objects_with "PENDING") (at_second "" 1)
           collection "GET" "b1/x" "" ltac:(reflexivity) ltac:(reflexivity)).
Defined.

(** An unknown host. *)
Lemma unknown_host_or_token_stops_witness :
  let req := Provider.mkConfigureRequest []
               (Provider.mkModel Provider.StringUnknown
                  (Provider.StringValue "token") Provider.StringNull
                  Provider.StringNull) in
  Provider.ResourceData (Provider.Configure ∅ req) = None
  /\ Provider.mkDiagnostic Provider.SeverityError (Some "host")
       "Unknown HashiCups API Host"
     ∈ Provider.resp_Diagnostics (Provider.Configure ∅ req).
Proof.
  intros req.
  destruct (unknown_host_or_token_stops ∅ req ltac:(reflexivity)
              ltac:(left; reflexivity)) as (Hdata & Hhost & _).
  split; [exact Hdata|exact (Hhost ltac:(reflexivity))].
Defined.

(** No host anywhere and an interval that does not parse. *)
Lemma configuration_errors_reported_together_witness :
  let req := Provider.mkConfigureRequest []
               (Provider.mkModel Provider.StringNull
                  (Provider.StringValue "token") Provider.StringNull
                  (Provider.StringValue "soon")) in
  Provider.mkDiagnostic Provider.SeverityError (Some "host")
    "Missing MissionControl API Host"
  ∈ Provider.resp_Diagnostics (Provider.Configure ∅ req)
  /\ Provider.mkDiagnostic Provider.SeverityError
       (Some "polling_intervall_duration") "Invalid polling intervall duration"
     ∈ Provider.resp_Diagnostics (Provider.Configure ∅ req).
Proof.
  intros req.
  destruct (configuration_errors_reported_together ∅ req ltac:(reflexivity)
              ltac:(reflexivity) ltac:(reflexivity))
    as (Hhost & _ & Hint & _).
  split; [exact (Hhost ltac:(reflexivity))|exact (Hint ltac:(reflexivity))].
Defined.

(** The configuration of the acceptance test. *)
Lemma provider_data_means_checked_witness :
  Provider.ResourceData
    (Provider.Configure ∅ (Provider.mkConfigureRequest [] config))
  = Some (Provider.mkCMProviderData "http://localhost:8091" "token"
            Second (1800 * Second)%Z)
  /\ Provider.from_env_or_config ∅ "MISSIONCONTROL_HOST" (Provider.Host config)
     <> ""
  /\ Provider.HasError [] = false.
Proof.
  assert (Hdata : Provider.ResourceData
                    (Provider.Configure ∅ (Provider.mkConfigureRequest [] config))
                  = Some (Provider.mkCMProviderData "http://localhost:8091"
                            "token" Second (1800 * Second)%Z))
    by (vm_compute; reflexivity).
  split; [exact Hdata|].
  destruct (provider_data_means_checked ∅
              (Provider.mkConfigureRequest [] config) _ Hdata)
    as (Hd & _ & _ & Hhost & _).
  split; [exact Hhost|exact Hd].
Defined.

(** An unknown timeout with the environment variable set to [1s]: the
    data holds the default, thirty minutes. *)
Lemma provider_data_durations_witness :
  let env : gmap string string := <["POLLING_TIMEOUT_DURATION" := "1s"]> ∅ in
  let req := Provider.mkConfigureRequest []
               (Provider.mkModel (Provider.StringValue "http://localhost:8091")
                  (Provider.StringValue "token") Provider.StringUnknown
                  Provider.StringNull) in
  Provider.ResourceData (Provider.Configure env req)
  = Some (Provider.mkCMProviderData "http://localhost:8091" "token"
            (20 * Second)%Z (1800 * Second)%Z)
  /\ Provider.ParseDuration "30m" = Some (1800 * Second)%Z.
Proof.
  intros env req.
  assert (Hdata : Provider.ResourceData (Provider.Configure env req)
                  = Some (Provider.mkCMProviderData "http://localhost:8091"
                            "token" (20 * Second)%Z (1800 * Second)%Z))
    by (vm_compute; reflexivity).
  split; [exact Hdata|].
  destruct (provider_data_durations env req _ Hdata) as (_ & _ & _ & HT).
  exact (HT ltac:(left; reflexivity)).
Defined.

(** Deleting the broker [b1]. *)
Lemma answers_name_addressed_identity_witness :
  exists j,
    reply (objects_with "PENDING") (at_second "" 1) (DELETE "b1") = Some j
    /\ jpath ["data"; "resourceId"] j = Some (JString "b1")
    /\ jpath ["data"; "id"] j = Some (JString "Ob1").
Proof.
  eexists. split; [reflexivity|].
  exact (proj2 (answers_name_addressed_identity
                  (objects_with "PENDING") (at_second "" 1) (DELETE "b1")
                  "b1" "" (broker "PENDING") _ (sample_keyed "PENDING")
                  (targets_b1 "DELETE" "") ltac:(reflexivity)
                  ltac:(reflexivity) ltac:(reflexivity))
           ltac:(reflexivity)).
Defined.

(** The GET of the pending broker [b1]. *)
Lemma status_by_method_witness :
  status (objects_with "PENDING") (at_second "" 1) (GET "b1") = Some 200%Z
  /\ (Method (GET "b1") = "GET" \/ Method (GET "b1") = "PATCH").
Proof.
  destruct (status_by_method (objects_with "PENDING") (at_second "" 1)
              (GET "b1") "" ltac:(reflexivity)) as (_ & _ & H200 & _).
  split; [reflexivity|exact (H200 ltac:(reflexivity))].
Defined.

Lemma answers_are_enveloped_witness :
  exists j,
    reply (objects_with "PENDING") (at_second "" 1) (GET "b1") = Some j
    /\ enveloped j.
Proof.
  eexists. split; [reflexivity|].
  exact (proj2 (answers_are_enveloped (objects_with "PENDING")
                  (at_second "" 1) (GET "b1") "" ltac:(reflexivity))
           _ ltac:(reflexivity)).
Defined.

End FurtherExamples.
